(** * Invisible Cities: the base cities

    A shallow embedding of [invisible_cities/cities/base_cities.py]: the
    class hierarchy [City] <- [DeconvolutionCity] <- [CalibratedCity] <-
    [PmapCity], its constructors, setters and per-event methods, together
    with the properties the specification states about them.

    Conventions
    - a Python [float] / [np.double] is an IEEE-754 binary64 value, modelled
      by [spec_float] with the comparisons and operations of [SpecFloat];
    - a Python [int] is a [Z];
    - a one-dimensional numpy array is a [list]; a [dict] is a [gmap];
    - a method that can raise returns a [result]; a setter is a function
      from the object before the call to the object after it. *)

From Stdlib Require Import ZArith Bool Lia.
From Stdlib Require Import Floats.SpecFloat.
From stdpp Require Import base option list strings sorting gmap fin_maps.

(** ** Doubles *)

Definition double : Type := spec_float.

Definition prec : Z := 53.
Definition emax : Z := 1024.

Definition dzero : double := S754_zero false.
Definition dnan : double := S754_nan.

(** The literal [0.2]: the binary64 value nearest to 1/5. *)
Definition double_0_2 : double := S754_finite false 7205759403792794 (-55).

(** [float(z)] for a Python integer [z]. *)
Definition double_of_Z (z : Z) : double := binary_normalize prec emax z 0 false.

Definition dadd (x y : double) : double := SFadd prec emax x y.
Definition dmul (x y : double) : double := SFmul prec emax x y.

(** [x < y], [x <= y] and [x > y] on doubles; each is [False] when an
    operand is NaN. *)
Definition dlt (x y : double) : bool := SFltb x y.
Definition dle (x y : double) : bool := SFleb x y.
Definition dgt (x y : double) : bool := SFltb y x.

(** ** Exceptions *)

Inductive exception : Set :=
| LookupError
| ConfigurationError
| AttributeError.

Inductive result (A : Type) : Type :=
| Ok (a : A)
| Raise (e : exception).
Arguments Ok {A} a.
Arguments Raise {A} e.

#[global] Instance result_ret : MRet result := fun A a => Ok a.
#[global] Instance result_bind : MBind result := fun A B f m =>
  match m with
  | Ok a => f a
  | Raise e => Raise e
  end.

(** ** The calibration database (load_db)

    The tables [load_db.DataPMT] and [load_db.DataSiPM] return for a run:
    one column per attribute the cities read. *)

Record DataPMT_table : Type := {
  pmt_adc_to_pes : list double;
  pmt_coeff_c    : list double;
  pmt_coeff_blr  : list double;
  pmt_noise_rms  : list double
}.

Record DataSiPM_table : Type := {
  sipm_X          : list double;
  sipm_Y          : list double;
  sipm_adc_to_pes_column : list double
}.

(** [abs(a)] on a numpy array of doubles, and [a.astype(np.double)] on an
    array that already holds doubles. *)
Definition np_abs (a : list double) : list double := SFabs <$> a.
Definition astype_double (a : list double) : list double := a.

(** ** S12Params = namedtuple('S12Params', 'tmin tmax stride lmin lmax rebin') *)

Record S12Params : Type := {
  tmin   : double;
  tmax   : double;
  stride : Z;
  lmin   : Z;
  lmax   : Z;
  rebin  : Z
}.

(** The invariant the specification states for a Peak Search Parameters
    record. *)
Definition S12Params_valid (p : S12Params) : bool :=
  dle (tmin p) (tmax p) && (lmin p <=? lmax p)%Z
  && (0 <? stride p)%Z && (0 <? rebin p)%Z.

(** ** class City *)

Record City : Type := {
  run_number      : Z;
  nprint          : Z;
  input_files     : option (list string);
  output_file     : option string;
  compression     : string;
  xs              : list double;
  ys              : list double;
  adc_to_pes      : list double;
  sipm_adc_to_pes : list double;
  coeff_c         : list double;
  coeff_blr       : list double;
  noise_rms       : list double
}.

(** The seven fields that make up the calibration context. *)
Definition calibration_context (self : City)
  : list double * list double * list double * list double
    * list double * list double * list double :=
  (xs self, ys self, adc_to_pes self, sipm_adc_to_pes self,
   coeff_c self, coeff_blr self, noise_rms self).

(** ** class DeconvolutionCity(City) *)

Record DeconvolutionCity : Type := {
  deconv_super : City;
  n_baseline   : Z;
  thr_trigger  : double
}.

(** ** class CalibratedCity(DeconvolutionCity) *)

Record CalibratedCity : Type := {
  calib_super : DeconvolutionCity;
  n_MAU       : Z;
  thr_MAU     : double;
  thr_csum_s1 : double;
  thr_csum_s2 : double;
  n_MAU_sipm  : Z;
  thr_sipm    : double
}.

(** ** class PmapCity(CalibratedCity) *)

Record PmapCity : Type := {
  pmap_super  : CalibratedCity;
  s1_params   : option S12Params;
  s2_params   : option S12Params;
  thr_sipm_s2 : double
}.

(** An instance of a subclass after a method of its base class has run on
    it: the base part is the one the method leaves, the attributes the
    subclass adds are as they were. *)
Definition DeconvolutionCity_with_super (self : DeconvolutionCity)
    (super : City) : DeconvolutionCity :=
  {| deconv_super := super;
     n_baseline   := n_baseline self;
     thr_trigger  := thr_trigger self |}.

Definition CalibratedCity_with_super (self : CalibratedCity)
    (super : DeconvolutionCity) : CalibratedCity :=
  {| calib_super := super;
     n_MAU       := n_MAU self;
     thr_MAU     := thr_MAU self;
     thr_csum_s1 := thr_csum_s1 self;
     thr_csum_s2 := thr_csum_s2 self;
     n_MAU_sipm  := n_MAU_sipm self;
     thr_sipm    := thr_sipm self |}.

Definition PmapCity_with_super (self : PmapCity) (super : CalibratedCity)
  : PmapCity :=
  {| pmap_super  := super;
     s1_params   := s1_params self;
     s2_params   := s2_params self;
     thr_sipm_s2 := thr_sipm_s2 self |}.

(** The [City] part of an instance of each subclass. *)
Definition CalibratedCity_city (self : CalibratedCity) : City :=
  deconv_super (calib_super self).
Definition PmapCity_city (self : PmapCity) : City :=
  CalibratedCity_city (pmap_super self).

(** *** Setters of City *)

Definition set_print (self : City) (nprint : Z) : City :=
  {| run_number      := run_number self;
     nprint          := nprint;
     input_files     := input_files self;
     output_file     := output_file self;
     compression     := compression self;
     xs              := xs self;
     ys              := ys self;
     adc_to_pes      := adc_to_pes self;
     sipm_adc_to_pes := sipm_adc_to_pes self;
     coeff_c         := coeff_c self;
     coeff_blr       := coeff_blr self;
     noise_rms       := noise_rms self |}.

Definition set_input_files (self : City) (input_files : option (list string))
  : City :=
  {| run_number      := run_number self;
     nprint          := nprint self;
     input_files     := input_files;
     output_file     := output_file self;
     compression     := compression self;
     xs              := xs self;
     ys              := ys self;
     adc_to_pes      := adc_to_pes self;
     sipm_adc_to_pes := sipm_adc_to_pes self;
     coeff_c         := coeff_c self;
     coeff_blr       := coeff_blr self;
     noise_rms       := noise_rms self |}.

Definition set_output_file (self : City) (output_file : option string)
  : City :=
  {| run_number      := run_number self;
     nprint          := nprint self;
     input_files     := input_files self;
     output_file     := output_file;
     compression     := compression self;
     xs              := xs self;
     ys              := ys self;
     adc_to_pes      := adc_to_pes self;
     sipm_adc_to_pes := sipm_adc_to_pes self;
     coeff_c         := coeff_c self;
     coeff_blr       := coeff_blr self;
     noise_rms       := noise_rms self |}.

Definition set_compression (self : City) (compression : string) : City :=
  {| run_number      := run_number self;
     nprint          := nprint self;
     input_files     := input_files self;
     output_file     := output_file self;
     compression     := compression;
     xs              := xs self;
     ys              := ys self;
     adc_to_pes      := adc_to_pes self;
     sipm_adc_to_pes := sipm_adc_to_pes self;
     coeff_c         := coeff_c self;
     coeff_blr       := coeff_blr self;
     noise_rms       := noise_rms self |}.

(** *** Setters of DeconvolutionCity *)

Definition set_blr (self : DeconvolutionCity) (n_baseline : Z)
    (thr_trigger : double) : DeconvolutionCity :=
  {| deconv_super := deconv_super self;
     n_baseline   := n_baseline;
     thr_trigger  := thr_trigger |}.

(** *** Setters of CalibratedCity *)

Definition set_csum (self : CalibratedCity) (n_MAU : Z)
    (thr_MAU thr_csum_s1 thr_csum_s2 : double) : CalibratedCity :=
  {| calib_super := calib_super self;
     n_MAU       := n_MAU;
     thr_MAU     := thr_MAU;
     thr_csum_s1 := thr_csum_s1;
     thr_csum_s2 := thr_csum_s2;
     n_MAU_sipm  := n_MAU_sipm self;
     thr_sipm    := thr_sipm self |}.

Definition set_sipm (self : CalibratedCity) (n_MAU_sipm : Z)
    (thr_sipm : double) : CalibratedCity :=
  {| calib_super := calib_super self;
     n_MAU       := n_MAU self;
     thr_MAU     := thr_MAU self;
     thr_csum_s1 := thr_csum_s1 self;
     thr_csum_s2 := thr_csum_s2 self;
     n_MAU_sipm  := n_MAU_sipm;
     thr_sipm    := thr_sipm |}.

(** *** Setters of PmapCity *)

Definition set_pmap_params (self : PmapCity)
    (s1_params s2_params : option S12Params) (thr_sipm_s2 : double)
  : PmapCity :=
  {| pmap_super  := pmap_super self;
     s1_params   := s1_params;
     s2_params   := s2_params;
     thr_sipm_s2 := thr_sipm_s2 |}.

(** ** Attributes and setter calls, as data

    The attributes of a [PmapCity] (every attribute any class of the
    hierarchy assigns in its constructor), the value each one holds, and
    the calls of the eight setters with their arguments. *)

Inductive attribute : Set :=
| a_run_number | a_nprint | a_input_files | a_output_file | a_compression
| a_xs | a_ys | a_adc_to_pes | a_sipm_adc_to_pes
| a_coeff_c | a_coeff_blr | a_noise_rms
| a_n_baseline | a_thr_trigger
| a_n_MAU | a_thr_MAU | a_thr_csum_s1 | a_thr_csum_s2
| a_n_MAU_sipm | a_thr_sipm
| a_s1_params | a_s2_params | a_thr_sipm_s2.

Inductive value : Type :=
| v_int    (z : Z)
| v_float  (d : double)
| v_str    (s : string)
| v_file   (f : option string)
| v_files  (fs : option (list string))
| v_array  (a : list double)
| v_params (p : option S12Params).

(** [getattr(self, a)] on an instance of each class; [None] stands for the
    [AttributeError] of an attribute the class does not have. *)
Definition City_getattr (self : City) (a : attribute) : option value :=
  match a with
  | a_run_number      => Some (v_int (run_number self))
  | a_nprint          => Some (v_int (nprint self))
  | a_input_files     => Some (v_files (input_files self))
  | a_output_file     => Some (v_file (output_file self))
  | a_compression     => Some (v_str (compression self))
  | a_xs              => Some (v_array (xs self))
  | a_ys              => Some (v_array (ys self))
  | a_adc_to_pes      => Some (v_array (adc_to_pes self))
  | a_sipm_adc_to_pes => Some (v_array (sipm_adc_to_pes self))
  | a_coeff_c         => Some (v_array (coeff_c self))
  | a_coeff_blr       => Some (v_array (coeff_blr self))
  | a_noise_rms       => Some (v_array (noise_rms self))
  | _                 => None
  end.

Definition DeconvolutionCity_getattr (self : DeconvolutionCity)
    (a : attribute) : option value :=
  match a with
  | a_n_baseline  => Some (v_int (n_baseline self))
  | a_thr_trigger => Some (v_float (thr_trigger self))
  | _             => City_getattr (deconv_super self) a
  end.

Definition CalibratedCity_getattr (self : CalibratedCity)
    (a : attribute) : option value :=
  match a with
  | a_n_MAU       => Some (v_int (n_MAU self))
  | a_thr_MAU     => Some (v_float (thr_MAU self))
  | a_thr_csum_s1 => Some (v_float (thr_csum_s1 self))
  | a_thr_csum_s2 => Some (v_float (thr_csum_s2 self))
  | a_n_MAU_sipm  => Some (v_int (n_MAU_sipm self))
  | a_thr_sipm    => Some (v_float (thr_sipm self))
  | _             => DeconvolutionCity_getattr (calib_super self) a
  end.

Definition PmapCity_getattr (self : PmapCity) (a : attribute)
  : option value :=
  match a with
  | a_s1_params   => Some (v_params (s1_params self))
  | a_s2_params   => Some (v_params (s2_params self))
  | a_thr_sipm_s2 => Some (v_float (thr_sipm_s2 self))
  | _             => CalibratedCity_getattr (pmap_super self) a
  end.

Definition is_calibration_field (a : attribute) : bool :=
  match a with
  | a_xs | a_ys | a_adc_to_pes | a_sipm_adc_to_pes
  | a_coeff_c | a_coeff_blr | a_noise_rms => true
  | _ => false
  end.

Inductive setter_call : Type :=
| call_set_print       (nprint : Z)
| call_set_input_files (input_files : option (list string))
| call_set_output_file (output_file : option string)
| call_set_compression (compression : string)
| call_set_blr         (n_baseline : Z) (thr_trigger : double)
| call_set_csum        (n_MAU : Z) (thr_MAU thr_csum_s1 thr_csum_s2 : double)
| call_set_sipm        (n_MAU_sipm : Z) (thr_sipm : double)
| call_set_pmap_params (s1_params s2_params : option S12Params)
                       (thr_sipm_s2 : double).

(** The attributes a setter names on the left of an assignment, with the
    argument it assigns to each. *)
Definition assignments (c : setter_call) : list (attribute * value) :=
  match c with
  | call_set_print n         => [(a_nprint, v_int n)]
  | call_set_input_files fs  => [(a_input_files, v_files fs)]
  | call_set_output_file f   => [(a_output_file, v_file f)]
  | call_set_compression s   => [(a_compression, v_str s)]
  | call_set_blr n t         => [(a_n_baseline, v_int n);
                                 (a_thr_trigger, v_float t)]
  | call_set_csum n t t1 t2  => [(a_n_MAU, v_int n); (a_thr_MAU, v_float t);
                                 (a_thr_csum_s1, v_float t1);
                                 (a_thr_csum_s2, v_float t2)]
  | call_set_sipm n t        => [(a_thr_sipm, v_float t);
                                 (a_n_MAU_sipm, v_int n)]
  | call_set_pmap_params p1 p2 t =>
                                [(a_s1_params, v_params p1);
                                 (a_s2_params, v_params p2);
                                 (a_thr_sipm_s2, v_float t)]
  end.

(** A setter call on an instance of each class, by method resolution: a
    method the class defines runs on the object; any other call goes to
    the base class and runs on the base part; a method no class of the
    chain has raises [AttributeError]. *)
Definition City_call (self : City) (c : setter_call) : result City :=
  match c with
  | call_set_print n        => Ok (set_print self n)
  | call_set_input_files fs => Ok (set_input_files self fs)
  | call_set_output_file f  => Ok (set_output_file self f)
  | call_set_compression s  => Ok (set_compression self s)
  | _                       => Raise AttributeError
  end.

Definition DeconvolutionCity_call (self : DeconvolutionCity) (c : setter_call)
  : result DeconvolutionCity :=
  match c with
  | call_set_blr n t => Ok (set_blr self n t)
  | _ => super ← City_call (deconv_super self) c;
         mret (DeconvolutionCity_with_super self super)
  end.

Definition CalibratedCity_call (self : CalibratedCity) (c : setter_call)
  : result CalibratedCity :=
  match c with
  | call_set_csum n t t1 t2 => Ok (set_csum self n t t1 t2)
  | call_set_sipm n t       => Ok (set_sipm self n t)
  | _ => super ← DeconvolutionCity_call (calib_super self) c;
         mret (CalibratedCity_with_super self super)
  end.

Definition PmapCity_call (self : PmapCity) (c : setter_call)
  : result PmapCity :=
  match c with
  | call_set_pmap_params p1 p2 t => Ok (set_pmap_params self p1 p2 t)
  | _ => super ← CalibratedCity_call (pmap_super self) c;
         mret (PmapCity_with_super self super)
  end.

#[global] Instance attribute_eq_dec : EqDecision attribute.
Proof. solve_decision. Defined.

(** ** Per-event data *)

(** A raw waveform set: one row of integer samples per sensor. *)
Abbreviation RawWaveforms := (list (list Z)).
(** Deconvolved or calibrated waveforms: one row of doubles per sensor. *)
Abbreviation Waveforms := (list (list double)).

(** A peak: its (time, amplitude) samples. The peaks of a class come as a
    sequence; the identifier of a peak is its position in it. *)
Abbreviation Sample := (double * double)%type.
Abbreviation Peak := (list Sample).

(** The sensor-peak charge map: peak identifier -> (channel -> charge). *)
Abbreviation S2Si_map := (gmap nat (gmap nat double)).

(** ** Zero suppression *)

(** Modelled from the spec: [core.peak_functions_c.wfzs] is not in this
    module, which only calls it. The scan of the signal from sample number
    [i] on, in sample order: it keeps the amplitude and the index of every
    sample above the threshold. *)
Fixpoint wfzs_from (i : Z) (wf : list double) (threshold : double)
  : list double * list Z :=
  match wf with
  | [] => ([], [])
  | x :: wf' =>
      let '(ene, indx) := wfzs_from (i + 1) wf' threshold in
      if dgt x threshold then (x :: ene, i :: indx) else (ene, indx)
  end.

(** Modelled from the spec: [core.peak_functions_c.wfzs], the
    zero-suppression primitive; the indices count from 0. *)
Definition cpf_wfzs (wf : list double) (threshold : double)
  : list double * list Z :=
  wfzs_from 0 wf threshold.

(** ** Peak search *)

(** Modelled from the spec: [core.peak_functions_c.find_S12] is not in this
    module. The search is the two-state machine of the specification over
    the stream of (amplitude, index) pairs; these are its states. *)
Inductive search_state : Type :=
| outside_peak
| accumulating_peak (run : Peak) (last : Z).

Section PeakSearch.

(** The sample period, and the coarsening of an accepted run by the
    rebinning factor, are numerics the specification leaves open. *)
Variable sample_period : double.
Variable rebin_peak : Z -> Peak -> Peak.

(** Modelled from the spec: the time of a sample, its index times the
    sample period. *)
Definition time_from_index (indx : Z) : double :=
  dmul (double_of_Z indx) sample_period.

(** Modelled from the spec: the time lies within [tmin, tmax]. *)
Definition in_time_window (p : S12Params) (t : double) : bool :=
  dle (tmin p) t && dle t (tmax p).

(** Modelled from the spec: the acceptance rule of the peak search, the
    sample count lies within [lmin, lmax]. *)
Definition length_accepted (p : S12Params) (n : Z) : bool :=
  ((lmin p <=? n) && (n <=? lmax p))%Z.

(** Modelled from the spec: closing a run gives one peak when it is
    accepted, and nothing otherwise. *)
Definition close_run (p : S12Params) (run : Peak) : list Peak :=
  if length_accepted p (Z.of_nat (length run))
  then [rebin_peak (rebin p) run]
  else [].

(** Modelled from the spec: one transition of the peak search, with the
    next state and the peaks it closes. A sample in the window starts a
    run; a sample within [stride] of the last one extends it; a sample
    outside the window, or after a longer gap, closes it (and, when in the
    window, starts the next run). *)
Definition search_step (p : S12Params) (st : search_state)
    (s : double * Z) : search_state * list Peak :=
  let '(amp, indx) := s in
  let t := time_from_index indx in
  match st with
  | outside_peak =>
      if in_time_window p t
      then (accumulating_peak [(t, amp)] indx, [])
      else (outside_peak, [])
  | accumulating_peak run last =>
      if negb (in_time_window p t)
      then (outside_peak, close_run p run)
      else if (indx - last <=? stride p)%Z
      then (accumulating_peak (run ++ [(t, amp)]) indx, [])
      else (accumulating_peak [(t, amp)] indx, close_run p run)
  end.

(** Modelled from the spec: the terminal step, a run still open when the
    stream ends is closed by the same rule. *)
Definition search_end (p : S12Params) (st : search_state) : list Peak :=
  match st with
  | outside_peak => []
  | accumulating_peak run _ => close_run p run
  end.

(** Modelled from the spec: the run of the machine over a stream. *)
Fixpoint search_run (p : S12Params) (st : search_state)
    (stream : list (double * Z)) : list Peak :=
  match stream with
  | [] => search_end p st
  | s :: stream' =>
      let '(st', closed) := search_step p st s in
      closed ++ search_run p st' stream'
  end.

(** Modelled from the spec: [core.peak_functions_c.find_S12], the peak
    search primitive, on the parallel amplitude and index sequences. *)
Definition cpf_find_S12 (ene : list double) (indx : list Z) (p : S12Params)
  : list Peak :=
  search_run p outside_peak (zip ene indx).

(** The samples a run of the stream accumulates. *)
Definition run_samples (stream : list (double * Z)) : Peak :=
  (fun s => (time_from_index s.2, s.1)) <$> stream.

(** A candidate run: every sample lies in the time window and follows its
    predecessor within [stride]. *)
Fixpoint contiguous_from (p : S12Params) (last : Z)
    (stream : list (double * Z)) : Prop :=
  match stream with
  | [] => True
  | s :: stream' =>
      in_time_window p (time_from_index s.2) = true
      /\ (s.2 - last <= stride p)%Z
      /\ contiguous_from p s.2 stream'
  end.

Definition candidate_run (p : S12Params) (stream : list (double * Z))
  : Prop :=
  match stream with
  | [] => False
  | s :: stream' =>
      in_time_window p (time_from_index s.2) = true
      /\ contiguous_from p s.2 stream'
  end.

(** The index of the last sample of a run that started after [last]. *)
Definition final_index (last : Z) (stream : list (double * Z)) : Z :=
  foldl (fun _ s => s.2) last stream.

(** The sample that closes a run whose last index is [last]: it lies
    outside the time window, or more than [stride] after [last]. *)
Definition closes_run (p : S12Params) (last : Z) (s : double * Z) : Prop :=
  in_time_window p (time_from_index s.2) = false
  \/ (stride p < s.2 - last)%Z.

End PeakSearch.

(** ** Sensor selection and mapping *)
Section SensorMapping.

(** Which calibrated sensor waveforms the selection keeps, and which
    samples of a sensor waveform fall in the time window of a peak, are
    numerics the specification leaves open. *)
Variable sensor_selected : list double -> bool.
Variable in_peak_window : Peak -> nat -> bool.

(** Modelled from the spec: [core.peak_functions_c.select_sipm] is not in
    this module. It returns the selected sensors, keyed by channel. *)
Definition cpf_select_sipm (sipmzs : Waveforms) : gmap nat (list double) :=
  filter (fun kv => sensor_selected kv.2 = true) (map_seq 0 sipmzs).

(** Modelled from the spec: the sum of a sensor's amplitude over the time
    window of a peak. *)
Definition window_charge (pk : Peak) (wf : list double) : double :=
  foldl dadd dzero
    (snd <$> filter (fun iv => in_peak_window pk iv.1 = true)
                    (zip (seq 0 (length wf)) wf)).

(** Modelled from the spec: the sensor map of one peak, the sensors whose
    summed contribution exceeds the threshold, with that contribution. *)
Definition sensor_map (SIPM : gmap nat (list double)) (thr : double)
    (pk : Peak) : gmap nat double :=
  omap (fun wf => let q := window_charge pk wf in
                  if dgt q thr then Some q else None) SIPM.

(** Modelled from the spec: [core.pmaps_functions.sipm_s2_dict] is not in
    this module. It maps the identifier of each peak to the sensor map of
    that peak. *)
Definition pmp_sipm_s2_dict (SIPM : gmap nat (list double)) (S2 : list Peak)
    (thr : double) : S2Si_map :=
  map_seq 0 (sensor_map SIPM thr <$> S2).

End SensorMapping.

(** ** A sample run

    Concrete collaborators and objects on which the statements below are
    instantiated: a database that knows the runs up to 4000, with one
    negative gain; a PmapCity for the Monte Carlo run -5; valid and invalid
    peak-search parameters; two sensors with charges 40 and 20. *)
Module Sample.

Definition DataPMT (run : Z) : result DataPMT_table :=
  if (run <=? 4000)%Z
  then Ok {| pmt_adc_to_pes := [double_of_Z (-25); double_of_Z 24; dzero];
             pmt_coeff_c    := [double_of_Z 2; double_of_Z 2; double_of_Z 2];
             pmt_coeff_blr  := [double_of_Z 1; double_of_Z 1; double_of_Z 1];
             pmt_noise_rms  := [double_of_Z 1; double_of_Z 1; double_of_Z 1] |}
  else Raise LookupError.

Definition DataSiPM (run : Z) : result DataSiPM_table :=
  if (run <=? 4000)%Z
  then Ok {| sipm_X := [double_of_Z (-10); double_of_Z 10];
             sipm_Y := [double_of_Z 5; double_of_Z 5];
             sipm_adc_to_pes_column := [double_of_Z 16; double_of_Z 17] |}
  else Raise LookupError.

Definition city : City :=
  {| run_number      := -5;
     nprint          := 10000;
     input_files     := None;
     output_file     := None;
     compression     := "ZLIB4";
     xs              := [double_of_Z (-10); double_of_Z 10];
     ys              := [double_of_Z 5; double_of_Z 5];
     adc_to_pes      := [double_of_Z 25; double_of_Z 24; dzero];
     sipm_adc_to_pes := [double_of_Z 16; double_of_Z 17];
     coeff_c         := [double_of_Z 2; double_of_Z 2; double_of_Z 2];
     coeff_blr       := [double_of_Z 1; double_of_Z 1; double_of_Z 1];
     noise_rms       := [double_of_Z 1; double_of_Z 1; double_of_Z 1] |}.

Definition deconv_city : DeconvolutionCity :=
  {| deconv_super := city; n_baseline := 4; thr_trigger := double_of_Z 5 |}.

Definition calib_city : CalibratedCity :=
  {| calib_super := deconv_city;
     n_MAU       := 100;
     thr_MAU     := double_of_Z 3;
     thr_csum_s1 := double_of_Z 1;
     thr_csum_s2 := double_of_Z 1;
     n_MAU_sipm  := 100;
     thr_sipm    := double_of_Z 5 |}.

(** The object [PmapCity(run_number = -5, n_baseline = 4, ...)] leaves
    behind: no peak-search parameters yet. *)
Definition pmap_city : PmapCity :=
  {| pmap_super  := calib_city;
     s1_params   := None;
     s2_params   := None;
     thr_sipm_s2 := double_of_Z 30 |}.

Definition params : S12Params :=
  {| tmin := dzero; tmax := double_of_Z 1000;
     stride := 4; lmin := 2; lmax := 3; rebin := 1 |}.

(** Every invariant of the specification is violated. *)
Definition bad_params : S12Params :=
  {| tmin := double_of_Z 10; tmax := dzero;
     stride := 0; lmin := 5; lmax := 1; rebin := 0 |}.

Definition sample_period : double := double_of_Z 25.
Definition rebin_peak (factor : Z) (run : Peak) : Peak := run.
Definition blr_deconvolve (RWF : RawWaveforms) (coeff_c coeff_blr : list double)
    (n_baseline : Z) (thr_trigger : double) : Waveforms :=
  (fun wf : list Z => double_of_Z <$> wf) <$> RWF.

Definition sensor_selected (wf : list double) : bool :=
  existsb (fun x => dgt x dzero) wf.
Definition in_peak_window (pk : Peak) (i : nat) : bool :=
  Nat.ltb i (length pk).

Definition peak : Peak :=
  [(double_of_Z 250, double_of_Z 7); (double_of_Z 275, double_of_Z 9)].
Definition sipmzs : Waveforms :=
  [[double_of_Z 25; double_of_Z 15; double_of_Z 3];
   [double_of_Z 12; double_of_Z 8; double_of_Z 3]].

Definition cpf_calibrated_pmt_sum (CWF : Waveforms) (gains : list double)
    (n_MAU : Z) (thr_MAU : double) : result (list double * list double) :=
  if (n_MAU <? 1)%Z then Raise ConfigurationError
  else Ok (default [] (head CWF), default [] (head CWF)).
Definition cpf_signal_sipm (SiRWF : RawWaveforms) (gains : list double)
    (thr : double) (n_MAU : Z) : result Waveforms :=
  if (n_MAU <? 1)%Z then Raise ConfigurationError
  else Ok ((fun wf : list Z => double_of_Z <$> wf) <$> SiRWF).

End Sample.

Section Cities.

(** The collaborators of the module that live in other files of the
    package: the calibration database, the system of units, and the
    numerics of deconvolution, calibrated sum and sensor calibration. *)
Variable load_db_DataPMT  : Z -> result DataPMT_table.
Variable load_db_DataSiPM : Z -> result DataSiPM_table.
Variable units_adc units_pes : double.
Variable blr_deconvolve :
  RawWaveforms -> list double -> list double -> Z -> double -> Waveforms.
Variable cpf_calibrated_pmt_sum :
  Waveforms -> list double -> Z -> double -> result (list double * list double).
Variable cpf_signal_sipm :
  RawWaveforms -> list double -> double -> Z -> result Waveforms.
Variable sample_period : double.
Variable rebin_peak : Z -> Peak -> Peak.
Variable sensor_selected : list double -> bool.
Variable in_peak_window : Peak -> nat -> bool.

(** The defaults of the keyword arguments of the constructors, and of
    [set_print], [set_sipm] and [set_pmap_params]. *)
Definition default_run_number  : Z := 0.
Definition default_files_in    : option (list string) := None.
Definition default_file_out    : option string := None.
Definition default_compression : string := "ZLIB4".
Definition default_nprint      : Z := 10000.
Definition default_n_baseline  : Z := 28000.
Definition default_thr_trigger : double := dmul (double_of_Z 5) units_adc.
Definition default_n_MAU       : Z := 100.
Definition default_thr_MAU     : double := dmul (double_of_Z 3) units_adc.
Definition default_thr_csum_s1 : double := dmul double_0_2 units_adc.
Definition default_thr_csum_s2 : double := dmul (double_of_Z 1) units_adc.
Definition default_n_MAU_sipm  : Z := 100.
Definition default_thr_sipm    : double := dmul (double_of_Z 5) units_pes.
Definition default_s1_params   : option S12Params := None.
Definition default_s2_params   : option S12Params := None.
Definition default_thr_sipm_s2 : double := dmul (double_of_Z 30) units_pes.
Definition set_print_default_nprint : Z := 1000.

(** Modelled from the spec: [sierpe.blr.deconv_pmt] is not in this module.
    A baseline window longer than a waveform is a Configuration Error;
    otherwise the deconvolution numerics run. *)
Definition blr_deconv_pmt (RWF : RawWaveforms) (coeff_c coeff_blr : list double)
    (n_baseline : Z) (thr_trigger : double) : result Waveforms :=
  if existsb (fun wf => (Z.of_nat (length wf) <? n_baseline)%Z) RWF
  then Raise ConfigurationError
  else Ok (blr_deconvolve RWF coeff_c coeff_blr n_baseline thr_trigger).

(** *** [City.__init__] *)
Definition City_init (run_number : Z) (files_in : option (list string))
    (file_out : option string) (compression : string) (nprint : Z)
  : result City :=
  DataPMT ← load_db_DataPMT run_number;
  DataSiPM ← load_db_DataSiPM run_number;
  mret {|
    run_number      := run_number;
    nprint          := nprint;
    input_files     := files_in;
    output_file     := file_out;
    compression     := compression;
    xs              := sipm_X DataSiPM;
    ys              := sipm_Y DataSiPM;
    adc_to_pes      := astype_double (np_abs (pmt_adc_to_pes DataPMT));
    sipm_adc_to_pes := astype_double (sipm_adc_to_pes_column DataSiPM);
    coeff_c         := astype_double (pmt_coeff_c DataPMT);
    coeff_blr       := astype_double (pmt_coeff_blr DataPMT);
    noise_rms       := astype_double (pmt_noise_rms DataPMT)
  |}.

(** [City.monte_carlo], a property: the value read, paired with the object
    after the read. *)
Definition monte_carlo (self : City) : bool * City :=
  ((run_number self <=? 0)%Z, self).

(** *** [DeconvolutionCity.__init__] and [deconv_pmt] *)
Definition DeconvolutionCity_init (run_number : Z)
    (files_in : option (list string)) (file_out : option string)
    (compression : string) (nprint : Z)
    (n_baseline : Z) (thr_trigger : double) : result DeconvolutionCity :=
  city ← City_init run_number files_in file_out compression nprint;
  mret {| deconv_super := city;
          n_baseline   := n_baseline;
          thr_trigger  := thr_trigger |}.

Definition deconv_pmt (self : DeconvolutionCity) (RWF : RawWaveforms)
  : result Waveforms :=
  blr_deconv_pmt RWF
                 (coeff_c (deconv_super self))
                 (coeff_blr (deconv_super self))
                 (n_baseline self)
                 (thr_trigger self).

(** *** [CalibratedCity.__init__] and its methods *)
Definition CalibratedCity_init (run_number : Z)
    (files_in : option (list string)) (file_out : option string)
    (compression : string) (nprint : Z)
    (n_baseline : Z) (thr_trigger : double)
    (n_MAU : Z) (thr_MAU thr_csum_s1 thr_csum_s2 : double)
    (n_MAU_sipm : Z) (thr_sipm : double) : result CalibratedCity :=
  deconv ← DeconvolutionCity_init run_number files_in file_out compression
                                  nprint n_baseline thr_trigger;
  mret {| calib_super := deconv;
          n_MAU       := n_MAU;
          thr_MAU     := thr_MAU;
          thr_csum_s1 := thr_csum_s1;
          thr_csum_s2 := thr_csum_s2;
          n_MAU_sipm  := n_MAU_sipm;
          thr_sipm    := thr_sipm |}.

Definition calibrated_pmt_sum (self : CalibratedCity) (CWF : Waveforms)
  : result (list double * list double) :=
  cpf_calibrated_pmt_sum CWF
                         (adc_to_pes (CalibratedCity_city self))
                         (n_MAU self)
                         (thr_MAU self).

Definition csum_zs (self : CalibratedCity) (csum : list double)
    (threshold : double) : list double * list Z :=
  cpf_wfzs csum threshold.

Definition calibrated_signal_sipm (self : CalibratedCity)
    (SiRWF : RawWaveforms) : result Waveforms :=
  cpf_signal_sipm SiRWF
                  (sipm_adc_to_pes (CalibratedCity_city self))
                  (thr_sipm self)
                  (n_MAU_sipm self).

(** *** [PmapCity.__init__] and its methods *)

Definition PmapCity_init (run_number : Z)
    (files_in : option (list string)) (file_out : option string)
    (compression : string) (nprint : Z)
    (n_baseline : Z) (thr_trigger : double)
    (n_MAU : Z) (thr_MAU thr_csum_s1 thr_csum_s2 : double)
    (n_MAU_sipm : Z) (thr_sipm : double)
    (s1_params s2_params : option S12Params) (thr_sipm_s2 : double)
  : result PmapCity :=
  calib ← CalibratedCity_init run_number files_in file_out compression nprint
                              n_baseline thr_trigger
                              n_MAU thr_MAU thr_csum_s1 thr_csum_s2
                              n_MAU_sipm thr_sipm;
  mret {| pmap_super  := calib;
          s1_params   := s1_params;
          s2_params   := s2_params;
          thr_sipm_s2 := thr_sipm_s2 |}.

(** [PmapCity(run_number = run_number)]: every other argument at its
    default. *)
Definition PmapCity_default (run_number : Z) : result PmapCity :=
  PmapCity_init run_number default_files_in default_file_out
                default_compression default_nprint
                default_n_baseline default_thr_trigger
                default_n_MAU default_thr_MAU
                default_thr_csum_s1 default_thr_csum_s2
                default_n_MAU_sipm default_thr_sipm
                default_s1_params default_s2_params default_thr_sipm_s2.

(** [params._asdict()]: an attribute lookup on the stored value, which is
    a record or [None]. *)
Definition asdict (params : option S12Params) : result S12Params :=
  match params with
  | Some p => Ok p
  | None   => Raise AttributeError
  end.

Definition find_S12 (self : PmapCity)
    (s1_ene : list double) (s1_indx : list Z)
    (s2_ene : list double) (s2_indx : list Z)
  : result (list Peak * list Peak) :=
  kw1 ← asdict (s1_params self);
  let S1 := cpf_find_S12 sample_period rebin_peak s1_ene s1_indx kw1 in
  kw2 ← asdict (s2_params self);
  let S2 := cpf_find_S12 sample_period rebin_peak s2_ene s2_indx kw2 in
  mret (S1, S2).

Definition find_S2Si (self : PmapCity) (S2 : list Peak) (sipmzs : Waveforms)
  : S2Si_map :=
  let SIPM := cpf_select_sipm sensor_selected sipmzs in
  let S2Si := pmp_sipm_s2_dict in_peak_window SIPM S2 (thr_sipm_s2 self) in
  S2Si.

(** *** Sequences of calls, and the per-event methods as data *)

(** Setter calls made one after the other on a PmapCity; a call that
    raises ends the sequence. *)
Fixpoint PmapCity_calls (self : PmapCity) (cs : list setter_call)
  : result PmapCity :=
  match cs with
  | [] => Ok self
  | c :: cs' => self' ← PmapCity_call self c; PmapCity_calls self' cs'
  end.

(** The calls of the six per-event methods with their arguments, and what
    they return. *)
Inductive method_call : Type :=
| call_deconv_pmt             (RWF : RawWaveforms)
| call_calibrated_pmt_sum     (CWF : Waveforms)
| call_csum_zs                (csum : list double) (threshold : double)
| call_calibrated_signal_sipm (SiRWF : RawWaveforms)
| call_find_S12               (s1_ene : list double) (s1_indx : list Z)
                              (s2_ene : list double) (s2_indx : list Z)
| call_find_S2Si              (S2 : list Peak) (sipmzs : Waveforms).

Inductive method_result : Type :=
| r_waveforms (w : Waveforms)
| r_sums      (s : list double * list double)
| r_sparse    (z : list double * list Z)
| r_peaks     (p : list Peak * list Peak)
| r_S2Si      (m : gmap nat (gmap nat double)).

(** A per-event method called on a PmapCity: the methods of the base
    classes run on the base part of the object. *)
Definition PmapCity_method (self : PmapCity) (m : method_call)
  : result method_result :=
  match m with
  | call_deconv_pmt RWF =>
      w ← deconv_pmt (calib_super (pmap_super self)) RWF; mret (r_waveforms w)
  | call_calibrated_pmt_sum CWF =>
      s ← calibrated_pmt_sum (pmap_super self) CWF; mret (r_sums s)
  | call_csum_zs csum threshold =>
      mret (r_sparse (csum_zs (pmap_super self) csum threshold))
  | call_calibrated_signal_sipm SiRWF =>
      w ← calibrated_signal_sipm (pmap_super self) SiRWF; mret (r_waveforms w)
  | call_find_S12 s1_ene s1_indx s2_ene s2_indx =>
      p ← find_S12 self s1_ene s1_indx s2_ene s2_indx; mret (r_peaks p)
  | call_find_S2Si S2 sipmzs =>
      mret (r_S2Si (find_S2Si self S2 sipmzs))
  end.

(** The attributes of [self] each per-event method reads. *)
Definition attributes_read (m : method_call) : list attribute :=
  match m with
  | call_deconv_pmt _ =>
      [a_coeff_c; a_coeff_blr; a_n_baseline; a_thr_trigger]
  | call_calibrated_pmt_sum _ => [a_adc_to_pes; a_n_MAU; a_thr_MAU]
  | call_csum_zs _ _ => []
  | call_calibrated_signal_sipm _ =>
      [a_sipm_adc_to_pes; a_thr_sipm; a_n_MAU_sipm]
  | call_find_S12 _ _ _ _ => [a_s1_params; a_s2_params]
  | call_find_S2Si _ _ => [a_thr_sipm_s2]
  end.

(** * Properties *)

(** ** Comparisons of doubles *)

Lemma SFcompare_antisym (x y : double) :
  SFcompare y x = CompOpp <$> SFcompare x y.
Proof using Type.
  destruct x as [sx|sx| |sx mx ex], y as [sy|sy| |sy my ey];
    try reflexivity;
    try (destruct sx; reflexivity);
    try (destruct sy; reflexivity);
    try (destruct sx, sy; reflexivity).
  cbn. f_equal.
  destruct sx, sy; try reflexivity;
    rewrite (Z.compare_antisym ex ey);
    destruct (ex ?= ey)%Z; cbn; try reflexivity;
    rewrite (Pos.compare_cont_antisym mx my Eq); reflexivity.
Qed.

Lemma dgt_not_dle (x y : double) : dgt x y = true -> dle x y = false.
Proof using Type.
  unfold dgt, dle, SFltb, SFleb. rewrite (SFcompare_antisym x y).
  destruct (SFcompare x y) as [[]|]; cbn; congruence.
Qed.

Lemma dlt_not_dgt (x y : double) : dlt x y = true -> dgt x y = false.
Proof using Type.
  unfold dgt, dlt, SFltb. rewrite (SFcompare_antisym x y).
  destruct (SFcompare x y) as [[]|]; cbn; congruence.
Qed.

Lemma SFabs_not_negative (x : double) : dlt (SFabs x) dzero = false.
Proof using Type. destruct x as [s|s| |s m e]; reflexivity. Qed.

Lemma SFabs_above_zero (x : double) : x <> dnan -> dle dzero (SFabs x) = true.
Proof using Type.
  destruct x as [s|s| |s m e]; intros H; try reflexivity. now elim H.
Qed.

(** ** City *)

(** C1. [monte_carlo] reads the object without changing it, depends on the
    run number only, and answers "simulated" exactly for a run number
    <= 0 and "real data" exactly for a positive one; so 0 and -5 are
    simulated and 1 is real data. *)
Theorem monte_carlo_classification (self : City) :
  (monte_carlo self).2 = self
  /\ ((monte_carlo self).1 = true <-> (run_number self <= 0)%Z)
  /\ ((monte_carlo self).1 = false <-> (0 < run_number self)%Z)
  /\ (forall other : City,
        run_number other = run_number self ->
        (monte_carlo other).1 = (monte_carlo self).1)
  /\ (run_number self = 0%Z -> (monte_carlo self).1 = true)
  /\ (run_number self = (-5)%Z -> (monte_carlo self).1 = true)
  /\ (run_number self = 1%Z -> (monte_carlo self).1 = false).
Proof using Type.
  unfold monte_carlo; cbn.
  repeat split; try (intros ->; reflexivity).
  - apply Z.leb_le.
  - apply Z.leb_le.
  - apply Z.leb_gt.
  - apply Z.leb_gt.
  - intros other ->. reflexivity.
Qed.

(** C2. Whenever the construction of a City succeeds, no entry of its
    [adc_to_pes] is below zero, whatever values the database returned:
    every entry is 0 <= x, except that a NaN of the database (which has no
    sign) stays a NaN. *)
Theorem adc_to_pes_non_negative
    (run : Z) (files_in : option (list string)) (file_out : option string)
    (codec : string) (freq : Z) (self : City) :
  City_init run files_in file_out codec freq = Ok self ->
  forall x : double, x ∈ adc_to_pes self ->
    dlt x dzero = false /\ (x <> dnan -> dle dzero x = true).
Proof using Type.
  unfold City_init. intros Hinit x Hx.
  destruct (load_db_DataPMT run) as [pmt|e]; [|discriminate].
  destruct (load_db_DataSiPM run) as [sipm|e]; [|discriminate].
  cbn in Hinit. injection Hinit as <-. cbn in Hx.
  unfold astype_double, np_abs in Hx.
  apply list_elem_of_fmap in Hx as (y & -> & _).
  split.
  - apply SFabs_not_negative.
  - intros Hnan. apply SFabs_above_zero.
    intros ->. now apply Hnan.
Qed.

(** ** Setters *)

Lemma not_assigned_decide (c : setter_call) (a : attribute) :
  a ∉ (assignments c).*1 -> bool_decide (a ∈ (assignments c).*1) = false.
Proof using Type. intros H. now apply bool_decide_eq_false. Qed.

(** After the call and the object are known: each assignment is visible
    in the result, and an attribute that is not assigned reads as before. *)
Ltac solve_assigned H :=
  cbn in H;
  repeat (apply elem_of_cons in H as [H|H];
          [injection H as -> ->; reflexivity|]);
  now apply elem_of_nil in H.

Ltac solve_frame H a :=
  destruct a; first [ discriminate H | reflexivity ].

Lemma City_call_frame (self self' : City) (c : setter_call) :
  City_call self c = Ok self' ->
  (forall a v, (a, v) ∈ assignments c -> City_getattr self' a = Some v)
  /\ (forall a, a ∉ (assignments c).*1 ->
        City_getattr self' a = City_getattr self a).
Proof using Type.
  intros Hc; split.
  - intros a v H.
    destruct c; try discriminate; injection Hc as <-; solve_assigned H.
  - intros a H. apply not_assigned_decide in H.
    destruct c; try discriminate; injection Hc as <-; solve_frame H a.
Qed.

Lemma DeconvolutionCity_call_frame (self self' : DeconvolutionCity)
    (c : setter_call) :
  DeconvolutionCity_call self c = Ok self' ->
  (forall a v, (a, v) ∈ assignments c ->
     DeconvolutionCity_getattr self' a = Some v)
  /\ (forall a, a ∉ (assignments c).*1 ->
        DeconvolutionCity_getattr self' a = DeconvolutionCity_getattr self a).
Proof using Type.
  intros Hc; split.
  - intros a v H.
    destruct c; try discriminate; injection Hc as <-; solve_assigned H.
  - intros a H. apply not_assigned_decide in H.
    destruct c; try discriminate; injection Hc as <-; solve_frame H a.
Qed.

Lemma CalibratedCity_call_frame (self self' : CalibratedCity)
    (c : setter_call) :
  CalibratedCity_call self c = Ok self' ->
  (forall a v, (a, v) ∈ assignments c ->
     CalibratedCity_getattr self' a = Some v)
  /\ (forall a, a ∉ (assignments c).*1 ->
        CalibratedCity_getattr self' a = CalibratedCity_getattr self a).
Proof using Type.
  intros Hc; split.
  - intros a v H.
    destruct c; try discriminate; injection Hc as <-; solve_assigned H.
  - intros a H. apply not_assigned_decide in H.
    destruct c; try discriminate; injection Hc as <-; solve_frame H a.
Qed.

Lemma PmapCity_call_frame (self self' : PmapCity) (c : setter_call) :
  PmapCity_call self c = Ok self' ->
  (forall a v, (a, v) ∈ assignments c -> PmapCity_getattr self' a = Some v)
  /\ (forall a, a ∉ (assignments c).*1 ->
        PmapCity_getattr self' a = PmapCity_getattr self a).
Proof using Type.
  intros Hc; split.
  - intros a v H.
    destruct c; try discriminate; injection Hc as <-; solve_assigned H.
  - intros a H. apply not_assigned_decide in H.
    destruct c; try discriminate; injection Hc as <-; solve_frame H a.
Qed.

Lemma PmapCity_call_total (self : PmapCity) (c : setter_call) :
  exists self', PmapCity_call self c = Ok self'.
Proof using Type. destruct c; eexists; reflexivity. Qed.

Lemma calibration_field_never_assigned (c : setter_call) (a : attribute) :
  is_calibration_field a = true -> a ∉ (assignments c).*1.
Proof using Type.
  intros Ha. apply (bool_decide_unpack _).
  destruct a; try discriminate Ha; destruct c; reflexivity.
Qed.

(** C3. After construction no setter touches the calibration context: for
    an instance of any of the four classes, a call of any setter the class
    has assigns its arguments to the attributes it names and leaves every
    other attribute as it was; the seven calibration fields are named by
    no setter; and on a PmapCity each of the eight setters can be called. *)
Theorem setters_leave_calibration_context :
  (forall c a, is_calibration_field a = true -> a ∉ (assignments c).*1)
  /\ (forall (self : PmapCity) c, exists self', PmapCity_call self c = Ok self')
  /\ (forall (self self' : City) c,
        City_call self c = Ok self' ->
        (forall a v, (a, v) ∈ assignments c -> City_getattr self' a = Some v)
        /\ (forall a, a ∉ (assignments c).*1 ->
              City_getattr self' a = City_getattr self a))
  /\ (forall (self self' : DeconvolutionCity) c,
        DeconvolutionCity_call self c = Ok self' ->
        (forall a v, (a, v) ∈ assignments c ->
           DeconvolutionCity_getattr self' a = Some v)
        /\ (forall a, a ∉ (assignments c).*1 ->
              DeconvolutionCity_getattr self' a
              = DeconvolutionCity_getattr self a))
  /\ (forall (self self' : CalibratedCity) c,
        CalibratedCity_call self c = Ok self' ->
        (forall a v, (a, v) ∈ assignments c ->
           CalibratedCity_getattr self' a = Some v)
        /\ (forall a, a ∉ (assignments c).*1 ->
              CalibratedCity_getattr self' a = CalibratedCity_getattr self a))
  /\ (forall (self self' : PmapCity) c,
        PmapCity_call self c = Ok self' ->
        (forall a v, (a, v) ∈ assignments c ->
           PmapCity_getattr self' a = Some v)
        /\ (forall a, a ∉ (assignments c).*1 ->
              PmapCity_getattr self' a = PmapCity_getattr self a)).
Proof using Type.
  split; [exact calibration_field_never_assigned|].
  split; [exact PmapCity_call_total|].
  split; [exact City_call_frame|].
  split; [exact DeconvolutionCity_call_frame|].
  split; [exact CalibratedCity_call_frame|].
  exact PmapCity_call_frame.
Qed.

(** The enumeration of attributes is complete: two PmapCity objects that
    agree on every attribute are the same object state. *)
Lemma PmapCity_getattr_ext (p q : PmapCity) :
  (forall a, PmapCity_getattr p a = PmapCity_getattr q a) -> p = q.
Proof using Type.
  intros H.
  destruct p as [[[[] ? ?] ? ? ? ? ? ?] ? ? ?],
           q as [[[[] ? ?] ? ? ? ? ? ?] ? ? ?].
  pose proof (H a_run_number); pose proof (H a_nprint);
  pose proof (H a_input_files); pose proof (H a_output_file);
  pose proof (H a_compression); pose proof (H a_xs); pose proof (H a_ys);
  pose proof (H a_adc_to_pes); pose proof (H a_sipm_adc_to_pes);
  pose proof (H a_coeff_c); pose proof (H a_coeff_blr);
  pose proof (H a_noise_rms); pose proof (H a_n_baseline);
  pose proof (H a_thr_trigger); pose proof (H a_n_MAU);
  pose proof (H a_thr_MAU); pose proof (H a_thr_csum_s1);
  pose proof (H a_thr_csum_s2); pose proof (H a_n_MAU_sipm);
  pose proof (H a_thr_sipm); pose proof (H a_s1_params);
  pose proof (H a_s2_params); pose proof (H a_thr_sipm_s2).
  cbn in *. congruence.
Qed.

(** ** Peak search parameters *)

(** C5, as the code has it. Neither the record nor the code that installs
    it validates anything: a record is built from any six values; the
    setter always succeeds and stores the two parameter arguments and the
    threshold exactly as given, whether or not they satisfy the invariant,
    leaving the rest of the object alone; and a constructor call that
    succeeds has stored its parameter arguments as given. *)
Theorem set_pmap_params_stores_unvalidated
    (self : PmapCity) (p1 p2 : option S12Params) (thr : double) :
  PmapCity_call self (call_set_pmap_params p1 p2 thr)
  = Ok (set_pmap_params self p1 p2 thr)
  /\ s1_params (set_pmap_params self p1 p2 thr) = p1
  /\ s2_params (set_pmap_params self p1 p2 thr) = p2
  /\ thr_sipm_s2 (set_pmap_params self p1 p2 thr) = thr
  /\ pmap_super (set_pmap_params self p1 p2 thr) = pmap_super self
  /\ (forall (t0 t1 : double) (st l0 l1 rb : Z),
        exists p : S12Params,
          p = Build_S12Params t0 t1 st l0 l1 rb
          /\ (tmin p, tmax p, stride p, lmin p, lmax p, rebin p)
             = (t0, t1, st, l0, l1, rb))
  /\ (forall run files_in file_out codec freq nb thr_trg
             nmau thr_mau thr_s1 thr_s2 nmau_sipm thr_si new,
        PmapCity_init run files_in file_out codec freq nb thr_trg
                      nmau thr_mau thr_s1 thr_s2 nmau_sipm thr_si
                      p1 p2 thr = Ok new ->
        s1_params new = p1 /\ s2_params new = p2 /\ thr_sipm_s2 new = thr).
Proof using Type.
  repeat apply conj; try reflexivity.
  - intros. eexists; split; reflexivity.
  - unfold PmapCity_init, CalibratedCity_init, DeconvolutionCity_init,
      City_init.
    intros run files_in file_out codec freq nb thr_trg
           nmau thr_mau thr_s1 thr_s2 nmau_sipm thr_si new H.
    destruct (load_db_DataPMT run) as [pmt|e]; [|discriminate].
    destruct (load_db_DataSiPM run) as [sipm|e]; [|discriminate].
    cbn in H. injection H as <-. repeat split.
Qed.

(** ** Deconvolution *)

(** C4. [deconv_pmt] fails with a Configuration Error when a waveform of
    the set is shorter than the configured [n_baseline], and returns the
    deconvolved waveforms, without that error, when every waveform is at
    least [n_baseline] long. *)
Theorem deconv_pmt_n_baseline (self : DeconvolutionCity) (RWF : RawWaveforms) :
  ((exists wf, wf ∈ RWF /\ (Z.of_nat (length wf) < n_baseline self)%Z) ->
   deconv_pmt self RWF = Raise ConfigurationError)
  /\ ((forall wf, wf ∈ RWF -> (n_baseline self <= Z.of_nat (length wf))%Z) ->
      deconv_pmt self RWF <> Raise ConfigurationError
      /\ exists CWF, deconv_pmt self RWF = Ok CWF).
Proof using Type.
  unfold deconv_pmt, blr_deconv_pmt. split.
  - intros (wf & Hin & Hlt).
    assert (existsb (fun wf => (Z.of_nat (length wf) <? n_baseline self)%Z)
                    RWF = true) as ->; [|reflexivity].
    apply existsb_exists. exists wf. split.
    + now apply list_elem_of_In.
    + now apply Z.ltb_lt.
  - intros Hall.
    assert (existsb (fun wf => (Z.of_nat (length wf) <? n_baseline self)%Z)
                    RWF = false) as ->.
    { apply not_true_is_false. intros H.
      apply existsb_exists in H as (wf & Hin & Hlt).
      apply list_elem_of_In in Hin. apply Hall in Hin.
      apply Z.ltb_lt in Hlt. lia. }
    split; [discriminate | eexists; reflexivity].
Qed.

(** ** Using a PmapCity before its peak-search parameters are set *)

Lemma find_S12_without_s1_params (self : PmapCity)
    (s1_ene : list double) (s1_indx : list Z)
    (s2_ene : list double) (s2_indx : list Z) :
  s1_params self = None ->
  find_S12 self s1_ene s1_indx s2_ene s2_indx = Raise AttributeError.
Proof using Type. unfold find_S12. intros ->. reflexivity. Qed.

Lemma find_S12_with_params (self : PmapCity) (p1 p2 : S12Params)
    (s1_ene : list double) (s1_indx : list Z)
    (s2_ene : list double) (s2_indx : list Z) :
  s1_params self = Some p1 -> s2_params self = Some p2 ->
  find_S12 self s1_ene s1_indx s2_ene s2_indx
  = Ok (cpf_find_S12 sample_period rebin_peak s1_ene s1_indx p1,
        cpf_find_S12 sample_period rebin_peak s2_ene s2_indx p2).
Proof using Type. unfold find_S12. intros -> ->. reflexivity. Qed.

(** C10. Construction with the default [s1_params] and [s2_params]
    succeeds whenever the database has the run, stores [None] for both,
    and on the object it returns every call of [find_S12] raises instead
    of returning peaks. *)
Theorem find_S12_before_set_pmap_params
    (run : Z) (files_in : option (list string)) (file_out : option string)
    (codec : string) (freq : Z) (nb : Z) (thr_trg : double)
    (nmau : Z) (thr_mau thr_s1 thr_s2 : double)
    (nmau_sipm : Z) (thr_si thr_si_s2 : double) :
  ((exists pmt sipm, load_db_DataPMT run = Ok pmt
                     /\ load_db_DataSiPM run = Ok sipm) ->
   exists self,
     PmapCity_init run files_in file_out codec freq nb thr_trg
                   nmau thr_mau thr_s1 thr_s2 nmau_sipm thr_si
                   default_s1_params default_s2_params thr_si_s2 = Ok self)
  /\ (forall self,
        PmapCity_init run files_in file_out codec freq nb thr_trg
                      nmau thr_mau thr_s1 thr_s2 nmau_sipm thr_si
                      default_s1_params default_s2_params thr_si_s2 = Ok self ->
        s1_params self = None
        /\ s2_params self = None
        /\ forall s1_ene s1_indx s2_ene s2_indx,
             find_S12 self s1_ene s1_indx s2_ene s2_indx
             = Raise AttributeError).
Proof using Type.
  unfold PmapCity_init, CalibratedCity_init, DeconvolutionCity_init, City_init.
  split.
  - intros (pmt & sipm & -> & ->). eexists. reflexivity.
  - intros self H.
    destruct (load_db_DataPMT run) as [pmt|e]; [|discriminate].
    destruct (load_db_DataSiPM run) as [sipm|e]; [|discriminate].
    cbn in H. injection H as <-.
    split; [reflexivity|]. split; [reflexivity|]. intros.
    now apply find_S12_without_s1_params.
Qed.

(** ** Zero suppression *)

Lemma wfzs_from_cons (i : Z) (x : double) (wf : list double) (thr : double) :
  wfzs_from i (x :: wf) thr
  = if dgt x thr
    then (x :: (wfzs_from (i + 1) wf thr).1, i :: (wfzs_from (i + 1) wf thr).2)
    else wfzs_from (i + 1) wf thr.
Proof using Type.
  cbn [wfzs_from]. destruct (wfzs_from (i + 1) wf thr) as [ene indx].
  reflexivity.
Qed.

Lemma wfzs_from_length (wf : list double) (thr : double) : forall i,
  length (wfzs_from i wf thr).1 = length (wfzs_from i wf thr).2.
Proof using Type.
  induction wf as [|x wf IH]; intros i; [reflexivity|].
  rewrite wfzs_from_cons. destruct (dgt x thr); cbn; [f_equal|]; apply IH.
Qed.

Lemma wfzs_from_range (wf : list double) (thr : double) : forall i,
  Forall (fun j => (i <= j < i + Z.of_nat (length wf))%Z)
         (wfzs_from i wf thr).2.
Proof using Type.
  induction wf as [|x wf IH]; intros i; [constructor|].
  rewrite wfzs_from_cons. specialize (IH (i + 1)%Z).
  assert (Forall (fun j => (i <= j < i + Z.of_nat (length (x :: wf)))%Z)
                 (wfzs_from (i + 1) wf thr).2) as Htl.
  { eapply Forall_impl; [exact IH|]. cbn [length]. intros j Hj. lia. }
  destruct (dgt x thr); cbn [snd]; [|exact Htl].
  constructor; [cbn [length]; lia | exact Htl].
Qed.

Lemma wfzs_from_increasing (wf : list double) (thr : double) : forall i,
  StronglySorted Z.lt (wfzs_from i wf thr).2.
Proof using Type.
  induction wf as [|x wf IH]; intros i; [constructor|].
  rewrite wfzs_from_cons.
  destruct (dgt x thr); cbn [snd]; [|apply IH].
  constructor; [apply IH|].
  eapply Forall_impl; [apply wfzs_from_range|]. intros j Hj. cbn in Hj. lia.
Qed.

Lemma wfzs_from_above (wf : list double) (thr : double) : forall i,
  Forall (fun x => dgt x thr = true) (wfzs_from i wf thr).1.
Proof using Type.
  induction wf as [|x wf IH]; intros i; [constructor|].
  rewrite wfzs_from_cons.
  destruct (dgt x thr) eqn:Hx; cbn [fst]; [|apply IH].
  constructor; [exact Hx | apply IH].
Qed.

(** The k-th surviving amplitude is the sample found at the k-th surviving
    index. *)
Lemma wfzs_from_sample (wf : list double) (thr : double) :
  forall i k x j,
    (wfzs_from i wf thr).1 !! k = Some x ->
    (wfzs_from i wf thr).2 !! k = Some j ->
    (i <= j)%Z /\ wf !! Z.to_nat (j - i) = Some x.
Proof using Type.
  induction wf as [|x0 wf IH]; intros i k x j; [discriminate|].
  rewrite wfzs_from_cons.
  assert (forall k, (wfzs_from (i + 1) wf thr).1 !! k = Some x ->
                    (wfzs_from (i + 1) wf thr).2 !! k = Some j ->
                    (i <= j)%Z /\ (x0 :: wf) !! Z.to_nat (j - i) = Some x)
    as Htl.
  { intros k' H1 H2. destruct (IH _ _ _ _ H1 H2) as [Hle Hat]. split; [lia|].
    replace (Z.to_nat (j - i)) with (S (Z.to_nat (j - (i + 1)))) by lia.
    exact Hat. }
  destruct (dgt x0 thr); cbn [fst snd]; [|apply Htl].
  destruct k as [|k]; cbn.
  - intros [= ->] [= ->]. split; [lia|].
    now replace (j - j)%Z with 0%Z by lia.
  - apply Htl.
Qed.

Lemma wfzs_from_none (wf : list double) (thr : double) : forall i,
  Forall (fun x => dgt x thr = false) wf -> wfzs_from i wf thr = ([], []).
Proof using Type.
  induction wf as [|x wf IH]; intros i Hall; [reflexivity|].
  rewrite wfzs_from_cons.
  apply Forall_cons in Hall as [-> Hall]. now apply IH.
Qed.

Lemma wfzs_from_all (wf : list double) (thr : double) : forall i,
  Forall (fun x => dgt x thr = true) wf ->
  wfzs_from i wf thr = (wf, seqZ i (Z.of_nat (length wf))).
Proof using Type.
  induction wf as [|x wf IH]; intros i Hall; [reflexivity|].
  rewrite wfzs_from_cons.
  apply Forall_cons in Hall as [-> Hall]. rewrite (IH _ Hall). cbn [fst snd].
  rewrite (seqZ_cons i) by (cbn [length]; lia).
  do 3 f_equal; cbn [length]; lia.
Qed.

(** C6. [csum_zs] returns amplitudes and indices of equal length; the
    indices are strictly increasing; every amplitude exceeds the threshold
    and is the input sample at its index; and an input whose samples are
    all below the threshold gives the empty pair. *)
Theorem csum_zs_sparse (self : CalibratedCity) (csum : list double)
    (threshold : double) :
  length (csum_zs self csum threshold).1 = length (csum_zs self csum threshold).2
  /\ StronglySorted Z.lt (csum_zs self csum threshold).2
  /\ Forall (fun x => dgt x threshold = true) (csum_zs self csum threshold).1
  /\ (forall k x j,
        (csum_zs self csum threshold).1 !! k = Some x ->
        (csum_zs self csum threshold).2 !! k = Some j ->
        (0 <= j)%Z /\ csum !! Z.to_nat j = Some x)
  /\ (Forall (fun x => dlt x threshold = true) csum ->
      csum_zs self csum threshold = ([], [])).
Proof using Type.
  unfold csum_zs, cpf_wfzs.
  split; [apply wfzs_from_length|].
  split; [apply wfzs_from_increasing|].
  split; [apply wfzs_from_above|].
  split.
  - intros k x j H1 H2.
    destruct (wfzs_from_sample _ _ _ _ _ _ H1 H2) as [Hle Hat].
    split; [exact Hle|]. now rewrite Z.sub_0_r in Hat.
  - intros Hall. apply wfzs_from_none.
    eapply Forall_impl; [exact Hall|]. intros x. apply dlt_not_dgt.
Qed.

(** C7. Suppressing the amplitudes [csum_zs] kept, at the same threshold,
    keeps all of them; a signal whose samples all exceed the threshold
    comes back unchanged, with the indices 0, 1, ...; and the result
    depends on the signal and the threshold only. *)
Theorem csum_zs_idempotent (self : CalibratedCity) (csum : list double)
    (threshold : double) :
  (csum_zs self (csum_zs self csum threshold).1 threshold).1
  = (csum_zs self csum threshold).1
  /\ (Forall (fun x => dgt x threshold = true) csum ->
      csum_zs self csum threshold
      = (csum, seqZ 0 (Z.of_nat (length csum))))
  /\ (forall (other : CalibratedCity) csum' threshold',
        csum' = csum -> threshold' = threshold ->
        csum_zs other csum' threshold' = csum_zs self csum threshold).
Proof using Type.
  unfold csum_zs, cpf_wfzs. split; [|split].
  - rewrite (wfzs_from_all (wfzs_from 0 csum threshold).1); [reflexivity|].
    apply wfzs_from_above.
  - apply wfzs_from_all.
  - intros _ ? ? -> ->. reflexivity.
Qed.

(** ** Sensor mapping *)

Lemma cpf_select_sipm_lookup (sipmzs : Waveforms) (ch : nat)
    (wf : list double) :
  cpf_select_sipm sensor_selected sipmzs !! ch = Some wf ->
  sipmzs !! ch = Some wf.
Proof using Type.
  unfold cpf_select_sipm. intros H.
  apply map_lookup_filter_Some in H as [H _].
  now rewrite (lookup_map_seq_0 (M := gmap nat)) in H.
Qed.

Lemma sensor_map_lookup (SIPM : gmap nat (list double)) (thr : double)
    (pk : Peak) (ch : nat) (q : double) :
  sensor_map in_peak_window SIPM thr pk !! ch = Some q <->
  exists wf, SIPM !! ch = Some wf
             /\ q = window_charge in_peak_window pk wf
             /\ dgt q thr = true.
Proof using Type.
  unfold sensor_map. rewrite lookup_omap. split.
  - destruct (SIPM !! ch) as [wf|]; [|discriminate]. cbn.
    destruct (dgt (window_charge in_peak_window pk wf) thr) eqn:Hq;
      [|discriminate].
    intros [= <-]. exists wf. auto.
  - intros (wf & -> & -> & Hq). cbn. now rewrite Hq.
Qed.

Lemma sensor_map_lookup_None (SIPM : gmap nat (list double)) (thr : double)
    (pk : Peak) (ch : nat) :
  (forall wf, SIPM !! ch = Some wf ->
              dgt (window_charge in_peak_window pk wf) thr = false) ->
  sensor_map in_peak_window SIPM thr pk !! ch = None.
Proof using Type.
  intros H. unfold sensor_map. rewrite lookup_omap.
  destruct (SIPM !! ch) as [wf|]; [|reflexivity]. cbn.
  now rewrite (H wf eq_refl).
Qed.

Lemma pmp_sipm_s2_dict_lookup (SIPM : gmap nat (list double))
    (S2 : list Peak) (thr : double) (k : nat) :
  pmp_sipm_s2_dict in_peak_window SIPM S2 thr !! k
  = sensor_map in_peak_window SIPM thr <$> S2 !! k.
Proof using Type.
  unfold pmp_sipm_s2_dict. rewrite (lookup_map_seq_0 (M := gmap nat)).
  apply list_lookup_fmap.
Qed.

(** C8. In the map [find_S2Si] returns: a sensor listed for a peak carries
    its summed contribution over the window of that peak, and that sum is
    not <= [thr_sipm_s2]; a sensor whose sum is <= the threshold is not
    listed; the keys are exactly the identifiers of the S2 peaks given;
    and a peak for which no sensor exceeds the threshold is mapped to the
    empty sensor map. *)
Theorem find_S2Si_threshold (self : PmapCity) (S2 : list Peak)
    (sipmzs : Waveforms) :
  (forall k smap ch q,
     find_S2Si self S2 sipmzs !! k = Some smap -> smap !! ch = Some q ->
     exists pk wf,
       S2 !! k = Some pk /\ sipmzs !! ch = Some wf
       /\ q = window_charge in_peak_window pk wf
       /\ dgt q (thr_sipm_s2 self) = true
       /\ dle q (thr_sipm_s2 self) = false)
  /\ (forall k pk ch wf smap,
        S2 !! k = Some pk -> sipmzs !! ch = Some wf ->
        dle (window_charge in_peak_window pk wf) (thr_sipm_s2 self) = true ->
        find_S2Si self S2 sipmzs !! k = Some smap -> smap !! ch = None)
  /\ (forall k, k ∈ dom (find_S2Si self S2 sipmzs) <-> is_Some (S2 !! k))
  /\ (forall k pk,
        S2 !! k = Some pk ->
        (forall ch wf, sipmzs !! ch = Some wf ->
           dgt (window_charge in_peak_window pk wf) (thr_sipm_s2 self) = false) ->
        find_S2Si self S2 sipmzs !! k = Some ∅).
Proof using Type.
  unfold find_S2Si. repeat apply conj.
  - intros k smap ch q Hk Hch.
    rewrite pmp_sipm_s2_dict_lookup in Hk.
    destruct (S2 !! k) as [pk|]; [|discriminate]. injection Hk as <-.
    apply sensor_map_lookup in Hch as (wf & Hwf & -> & Hq).
    exists pk, wf. repeat split; try assumption.
    + now apply cpf_select_sipm_lookup in Hwf.
    + now apply dgt_not_dle.
  - intros k pk ch wf smap Hpk Hwf Hle Hk.
    rewrite pmp_sipm_s2_dict_lookup, Hpk in Hk. injection Hk as <-.
    apply sensor_map_lookup_None. intros wf' Hwf'.
    apply cpf_select_sipm_lookup in Hwf'.
    rewrite Hwf in Hwf'. injection Hwf' as <-.
    destruct (dgt (window_charge in_peak_window pk wf) (thr_sipm_s2 self))
      eqn:Hgt; [|reflexivity].
    apply dgt_not_dle in Hgt. congruence.
  - intros k. rewrite elem_of_dom, pmp_sipm_s2_dict_lookup.
    apply fmap_is_Some.
  - intros k pk Hpk Hnone.
    rewrite pmp_sipm_s2_dict_lookup, Hpk. cbn. f_equal.
    apply map_eq. intros ch. rewrite lookup_empty.
    apply sensor_map_lookup_None. intros wf Hwf.
    apply cpf_select_sipm_lookup in Hwf. now apply (Hnone ch).
Qed.

(** ** Peak search *)

Local Abbreviation search := (search_run sample_period rebin_peak).
Local Abbreviation close := (close_run rebin_peak).
Local Abbreviation samples := (run_samples sample_period).
Local Abbreviation time := (time_from_index sample_period).

Lemma run_samples_length (stream : list (double * Z)) :
  length (samples stream) = length stream.
Proof using Type. unfold run_samples. apply length_fmap. Qed.

(** While the samples stay contiguous and in the window the machine stays
    in the accumulating state and closes nothing. *)
Lemma search_accumulates (p : S12Params) (stream rest : list (double * Z)) :
  forall run last,
    contiguous_from sample_period p last stream ->
    search p (accumulating_peak run last) (stream ++ rest)
    = search p (accumulating_peak (run ++ samples stream)
                                  (final_index last stream)) rest.
Proof using Type.
  induction stream as [|[amp indx] stream IH]; intros run last Hc.
  - cbn. now rewrite app_nil_r.
  - destruct Hc as (Hwin & Hgap & Hc). cbn in Hwin, Hgap.
    cbn [app search_run search_step]. rewrite Hwin. cbn [negb].
    apply Z.leb_le in Hgap. rewrite Hgap. cbn [app].
    rewrite (IH _ _ Hc). cbn. now rewrite <- app_assoc.
Qed.

Lemma search_candidate_run (p : S12Params) (stream rest : list (double * Z)) :
  candidate_run sample_period p stream ->
  search p outside_peak (stream ++ rest)
  = search p (accumulating_peak (samples stream) (final_index 0 stream)) rest.
Proof using Type.
  destruct stream as [|[amp indx] stream]; [intros []|].
  intros (Hwin & Hc). cbn in Hwin.
  cbn [app search_run search_step]. rewrite Hwin. cbn [app].
  now rewrite (search_accumulates _ _ _ _ _ Hc).
Qed.

Lemma search_open_run (p : S12Params) (stream : list (double * Z)) :
  candidate_run sample_period p stream ->
  search p outside_peak stream = close p (samples stream).
Proof using Type.
  intros Hc. rewrite <- (app_nil_r stream) at 1.
  now rewrite (search_candidate_run _ _ _ Hc).
Qed.

Lemma search_closed_run (p : S12Params) (stream : list (double * Z))
    (s : double * Z) (rest : list (double * Z)) :
  candidate_run sample_period p stream ->
  closes_run sample_period p (final_index 0 stream) s ->
  search p outside_peak (stream ++ s :: rest)
  = close p (samples stream) ++ search p outside_peak (s :: rest).
Proof using Type.
  intros Hc Hs. rewrite (search_candidate_run _ _ _ Hc).
  destruct s as [amp indx]. cbn [search_run search_step].
  destruct (in_time_window p (time indx)) eqn:Hwin; cbn [negb].
  - destruct Hs as [Hs|Hs]; cbn in Hs; [congruence|].
    apply Z.leb_gt in Hs. rewrite Hs. reflexivity.
  - reflexivity.
Qed.

Lemma length_accepted_iff (p : S12Params) (n : Z) :
  length_accepted p n = true <-> (lmin p <= n <= lmax p)%Z.
Proof using Type.
  unfold length_accepted. rewrite andb_true_iff, !Z.leb_le. reflexivity.
Qed.

Lemma close_run_accepted (p : S12Params) (run : Peak) :
  (lmin p <= Z.of_nat (length run) <= lmax p)%Z ->
  close p run = [rebin_peak (rebin p) run].
Proof using Type.
  intros H. unfold close_run. now rewrite (proj2 (length_accepted_iff _ _) H).
Qed.

Lemma close_run_rejected (p : S12Params) (run : Peak) :
  (Z.of_nat (length run) < lmin p \/ lmax p < Z.of_nat (length run))%Z ->
  close p run = [].
Proof using Type.
  intros H. unfold close_run.
  destruct (length_accepted p (Z.of_nat (length run))) eqn:E; [|reflexivity].
  apply length_accepted_iff in E. lia.
Qed.

(** C9. Once both parameter records are set, [find_S12] runs the search
    on each class and never raises. In the search a candidate run is
    closed by the same rule whether the stream ends in it or a later
    sample closes it: it becomes a peak exactly when its sample count lies
    in [lmin, lmax], both ends included, and is dropped otherwise. So with
    lmin <= lmax a run of lmin samples and one of lmax samples are
    accepted, and a run of lmin - 1 or of lmax + 1 samples is rejected. *)
Theorem find_S12_length_bounds (p : S12Params) :
  (forall self p1 p2 s1_ene s1_indx s2_ene s2_indx,
     s1_params self = Some p1 -> s2_params self = Some p2 ->
     find_S12 self s1_ene s1_indx s2_ene s2_indx
     = Ok (cpf_find_S12 sample_period rebin_peak s1_ene s1_indx p1,
           cpf_find_S12 sample_period rebin_peak s2_ene s2_indx p2))
  /\ (forall ene indx,
        candidate_run sample_period p (zip ene indx) ->
        cpf_find_S12 sample_period rebin_peak ene indx p
        = close p (samples (zip ene indx)))
  /\ (forall stream s rest,
        candidate_run sample_period p stream ->
        closes_run sample_period p (final_index 0 stream) s ->
        search p outside_peak (stream ++ s :: rest)
        = close p (samples stream) ++ search p outside_peak (s :: rest))
  /\ (forall stream : list (double * Z),
        let n := Z.of_nat (length stream) in
        let peak := rebin_peak (rebin p) (samples stream) in
        ((lmin p <= n <= lmax p)%Z -> close p (samples stream) = [peak])
        /\ ((n < lmin p \/ lmax p < n)%Z -> close p (samples stream) = [])
        /\ ((lmin p <= lmax p)%Z -> n = lmin p ->
            close p (samples stream) = [peak])
        /\ (n = (lmin p - 1)%Z -> close p (samples stream) = [])
        /\ ((lmin p <= lmax p)%Z -> n = lmax p ->
            close p (samples stream) = [peak])
        /\ (n = (lmax p + 1)%Z -> close p (samples stream) = [])).
Proof using Type.
  split; [intros self p1 p2 ? ? ? ?; apply find_S12_with_params|].
  split; [intros ene indx; apply search_open_run|].
  split; [intros stream s rest; apply search_closed_run|].
  intros stream n peak. subst n peak.
  rewrite <- (run_samples_length stream).
  repeat apply conj.
  - apply close_run_accepted.
  - apply close_run_rejected.
  - intros ? ?. apply close_run_accepted. lia.
  - intros ?. apply close_run_rejected. lia.
  - intros ? ?. apply close_run_accepted. lia.
  - intros ?. apply close_run_rejected. lia.
Qed.

(** * Further properties of the module *)

(** ** Construction *)

(** City construction succeeds exactly when both database lookups do;
    otherwise it raises the error of the first lookup that fails, and
    [DataPMT] is looked up before [DataSiPM]. *)
Theorem City_init_lookup_errors
    (run : Z) (files_in : option (list string)) (file_out : option string)
    (codec : string) (freq : Z) :
  ((exists self, City_init run files_in file_out codec freq = Ok self) <->
   (exists pmt sipm, load_db_DataPMT run = Ok pmt
                     /\ load_db_DataSiPM run = Ok sipm))
  /\ (forall e,
        City_init run files_in file_out codec freq = Raise e <->
        load_db_DataPMT run = Raise e
        \/ ((exists pmt, load_db_DataPMT run = Ok pmt)
            /\ load_db_DataSiPM run = Raise e)).
Proof using Type.
  unfold City_init.
  destruct (load_db_DataPMT run) as [pmt|e1];
    destruct (load_db_DataSiPM run) as [sipm|e2]; cbn; split.
  - split; [intros _; eauto | intros _; eexists; reflexivity].
  - intros e. split; [discriminate|].
    intros [H|[_ H]]; discriminate.
  - split; [intros [self H]; discriminate|].
    intros (p & q & _ & H). discriminate.
  - intros e. split.
    + intros [= ->]. right. eauto.
    + intros [H|[_ [= ->]]]; [discriminate | reflexivity].
  - split; [intros [self H]; discriminate|].
    intros (p & q & H & _). discriminate.
  - intros e. split.
    + intros [= ->]. left. reflexivity.
    + intros [[= ->]|[[p H] _]]; [reflexivity | discriminate].
  - split; [intros [self H]; discriminate|].
    intros (p & q & H & _). discriminate.
  - intros e. split.
    + intros [= ->]. left. reflexivity.
    + intros [[= ->]|[[p H] _]]; [reflexivity | discriminate].
Qed.

(** Two cities built for the same run hold the same calibration context
    and the same Monte Carlo classification, whatever files, codec and
    print frequency each was given; each holds its own five arguments. *)
Theorem City_init_same_run_same_calibration
    (run : Z)
    (files_in1 files_in2 : option (list string))
    (file_out1 file_out2 : option string)
    (codec1 codec2 : string) (freq1 freq2 : Z) (self1 self2 : City) :
  City_init run files_in1 file_out1 codec1 freq1 = Ok self1 ->
  City_init run files_in2 file_out2 codec2 freq2 = Ok self2 ->
  calibration_context self1 = calibration_context self2
  /\ (monte_carlo self1).1 = (monte_carlo self2).1
  /\ (run_number self1, input_files self1, output_file self1,
      compression self1, nprint self1)
     = (run, files_in1, file_out1, codec1, freq1)
  /\ (run_number self2, input_files self2, output_file self2,
      compression self2, nprint self2)
     = (run, files_in2, file_out2, codec2, freq2).
Proof using Type.
  unfold City_init. intros H1 H2.
  destruct (load_db_DataPMT run) as [pmt|e]; [|discriminate].
  destruct (load_db_DataSiPM run) as [sipm|e]; [|discriminate].
  cbn in H1, H2. injection H1 as <-. injection H2 as <-.
  repeat split.
Qed.

Lemma np_abs_idempotent (a : list double) : np_abs (np_abs a) = np_abs a.
Proof using Type.
  unfold np_abs. rewrite <- list_fmap_compose. apply list_fmap_ext.
  intros _ x _. cbn. destruct x; reflexivity.
Qed.

Lemma np_abs_not_negative (a : list double) :
  Forall (fun x => dlt x dzero = false) (np_abs a).
Proof using Type.
  unfold np_abs. apply Forall_fmap, Forall_true.
  intros x. apply SFabs_not_negative.
Qed.

(** The PMT gains a City holds are, position by position, the absolute
    values of the gains of the database: same length, each one the
    database value or its negation, and normalising them again changes
    nothing. The other six arrays, the SiPM gains among them, are held
    exactly as the database returns them, negative entries included. *)
Theorem City_init_gains
    (run : Z) (files_in : option (list string)) (file_out : option string)
    (codec : string) (freq : Z) (self : City)
    (pmt : DataPMT_table) (sipm : DataSiPM_table) :
  City_init run files_in file_out codec freq = Ok self ->
  load_db_DataPMT run = Ok pmt ->
  load_db_DataSiPM run = Ok sipm ->
  length (adc_to_pes self) = length (pmt_adc_to_pes pmt)
  /\ (forall k x, pmt_adc_to_pes pmt !! k = Some x ->
        adc_to_pes self !! k = Some (SFabs x)
        /\ (SFabs x = x \/ SFabs x = SFopp x))
  /\ np_abs (adc_to_pes self) = adc_to_pes self
  /\ (xs self, ys self, sipm_adc_to_pes self,
      coeff_c self, coeff_blr self, noise_rms self)
     = (sipm_X sipm, sipm_Y sipm, sipm_adc_to_pes_column sipm,
        pmt_coeff_c pmt, pmt_coeff_blr pmt, pmt_noise_rms pmt).
Proof using Type.
  unfold City_init. intros H Hpmt Hsipm. rewrite Hpmt, Hsipm in H.
  cbn in H. injection H as <-. cbn.
  unfold astype_double. split; [|split; [|split]].
  - unfold np_abs. apply length_fmap.
  - intros k x Hk. split.
    + unfold np_abs. rewrite list_lookup_fmap.
      exact (f_equal (fmap SFabs) Hk).
    + destruct x as [[]|[]| |[] m e]; cbn; auto.
  - apply np_abs_idempotent.
  - reflexivity.
Qed.

(** The constructors of the subclasses fail exactly when [City.__init__]
    fails, with its error; when they succeed the City part of the object
    is the one [City.__init__] builds from the first five arguments, and
    every attribute a subclass adds holds the argument given for it. *)
Theorem PmapCity_init_chain
    (run : Z) (files_in : option (list string)) (file_out : option string)
    (codec : string) (freq : Z) (nb : Z) (thr_trg : double)
    (nmau : Z) (thr_mau thr_s1 thr_s2 : double)
    (nmau_sipm : Z) (thr_si : double)
    (p1 p2 : option S12Params) (thr_si_s2 : double) :
  (forall e,
     PmapCity_init run files_in file_out codec freq nb thr_trg
                   nmau thr_mau thr_s1 thr_s2 nmau_sipm thr_si
                   p1 p2 thr_si_s2 = Raise e <->
     City_init run files_in file_out codec freq = Raise e)
  /\ (forall self,
        PmapCity_init run files_in file_out codec freq nb thr_trg
                      nmau thr_mau thr_s1 thr_s2 nmau_sipm thr_si
                      p1 p2 thr_si_s2 = Ok self <->
        City_init run files_in file_out codec freq = Ok (PmapCity_city self)
        /\ (forall a v,
              (a, v) ∈ [(a_n_baseline, v_int nb);
                        (a_thr_trigger, v_float thr_trg);
                        (a_n_MAU, v_int nmau); (a_thr_MAU, v_float thr_mau);
                        (a_thr_csum_s1, v_float thr_s1);
                        (a_thr_csum_s2, v_float thr_s2);
                        (a_n_MAU_sipm, v_int nmau_sipm);
                        (a_thr_sipm, v_float thr_si);
                        (a_s1_params, v_params p1);
                        (a_s2_params, v_params p2);
                        (a_thr_sipm_s2, v_float thr_si_s2)] ->
              PmapCity_getattr self a = Some v)).
Proof using Type.
  unfold PmapCity_init, CalibratedCity_init, DeconvolutionCity_init.
  destruct (City_init run files_in file_out codec freq) as [city|e0]; cbn.
  - split; [intros e; split; discriminate|].
    intros self. split.
    + intros [= <-]. split; [reflexivity|].
      intros a v H.
      repeat (apply elem_of_cons in H as [H|H];
              [injection H as -> ->; reflexivity|]).
      now apply elem_of_nil in H.
    + intros [Hcity Hattr].
      destruct self as [[[c ? ?] ? ? ? ? ? ?] ? ? ?].
      cbn in Hcity. injection Hcity as <-.
      pose proof (Hattr a_n_baseline _ ltac:(repeat constructor)) as E1.
      pose proof (Hattr a_thr_trigger _ ltac:(repeat constructor)) as E2.
      pose proof (Hattr a_n_MAU _ ltac:(repeat constructor)) as E3.
      pose proof (Hattr a_thr_MAU _ ltac:(repeat constructor)) as E4.
      pose proof (Hattr a_thr_csum_s1 _ ltac:(repeat constructor)) as E5.
      pose proof (Hattr a_thr_csum_s2 _ ltac:(repeat constructor)) as E6.
      pose proof (Hattr a_n_MAU_sipm _ ltac:(repeat constructor)) as E7.
      pose proof (Hattr a_thr_sipm _ ltac:(repeat constructor)) as E8.
      pose proof (Hattr a_s1_params _ ltac:(repeat constructor)) as E9.
      pose proof (Hattr a_s2_params _ ltac:(repeat constructor)) as E10.
      pose proof (Hattr a_thr_sipm_s2 _ ltac:(repeat constructor)) as E11.
      cbn in *. unfold mret, result_ret. congruence.
  - split.
    + intros e. split; intros [= ->]; reflexivity.
    + intros self. split; [discriminate | intros [H _]; discriminate].
Qed.

(** On a CalibratedCity the constructor built, [calibrated_pmt_sum] hands
    the primitive the absolute values of the PMT gains of the database,
    none of them negative, with the [n_MAU] and [thr_MAU] given at
    construction; [calibrated_signal_sipm] hands it the SiPM gains exactly
    as the database has them, with [thr_sipm] and [n_MAU_sipm]. *)
Theorem calibrated_methods_after_construction
    (run : Z) (files_in : option (list string)) (file_out : option string)
    (codec : string) (freq : Z) (nb : Z) (thr_trg : double)
    (nmau : Z) (thr_mau thr_s1 thr_s2 : double)
    (nmau_sipm : Z) (thr_si : double)
    (self : CalibratedCity) (pmt : DataPMT_table) (sipm : DataSiPM_table) :
  CalibratedCity_init run files_in file_out codec freq nb thr_trg
                      nmau thr_mau thr_s1 thr_s2 nmau_sipm thr_si = Ok self ->
  load_db_DataPMT run = Ok pmt ->
  load_db_DataSiPM run = Ok sipm ->
  (forall CWF,
     calibrated_pmt_sum self CWF
     = cpf_calibrated_pmt_sum CWF (np_abs (pmt_adc_to_pes pmt)) nmau thr_mau)
  /\ Forall (fun x => dlt x dzero = false) (np_abs (pmt_adc_to_pes pmt))
  /\ (forall SiRWF,
        calibrated_signal_sipm self SiRWF
        = cpf_signal_sipm SiRWF (sipm_adc_to_pes_column sipm)
                          thr_si nmau_sipm).
Proof using Type.
  unfold CalibratedCity_init, DeconvolutionCity_init, City_init.
  intros H Hpmt Hsipm. rewrite Hpmt, Hsipm in H.
  cbn in H. injection H as <-.
  split; [reflexivity|]. split; [apply np_abs_not_negative | reflexivity].
Qed.

(** [deconv_pmt] always runs on the baseline-restoration coefficients of
    the database, as the constructor stored them, with the [n_baseline]
    and [thr_trigger] of the constructor call; after [set_blr] it runs
    with the two new parameters and the same coefficients. *)
Theorem deconv_pmt_after_set_blr
    (run : Z) (files_in : option (list string)) (file_out : option string)
    (codec : string) (freq : Z) (nb : Z) (thr_trg : double)
    (self : DeconvolutionCity) (pmt : DataPMT_table) :
  DeconvolutionCity_init run files_in file_out codec freq nb thr_trg
  = Ok self ->
  load_db_DataPMT run = Ok pmt ->
  (forall RWF,
     deconv_pmt self RWF
     = blr_deconv_pmt RWF (pmt_coeff_c pmt) (pmt_coeff_blr pmt) nb thr_trg)
  /\ (forall n t RWF,
        deconv_pmt (set_blr self n t) RWF
        = blr_deconv_pmt RWF (pmt_coeff_c pmt) (pmt_coeff_blr pmt) n t).
Proof using Type.
  unfold DeconvolutionCity_init, City_init.
  intros H Hpmt. rewrite Hpmt in H.
  destruct (load_db_DataSiPM run) as [sipm|e]; [|discriminate].
  cbn in H. injection H as <-. split; reflexivity.
Qed.

(** ** Sequences of setter calls *)

Lemma PmapCity_calls_frame (cs : list setter_call) : forall self : PmapCity,
  exists self',
    PmapCity_calls self cs = Ok self'
    /\ forall a, (forall c, c ∈ cs -> a ∉ (assignments c).*1) ->
                 PmapCity_getattr self' a = PmapCity_getattr self a.
Proof using Type.
  induction cs as [|c cs IH]; intros self.
  - exists self. split; reflexivity.
  - destruct (PmapCity_call_total self c) as [mid Hmid].
    destruct (IH mid) as (self' & Hrun & Hframe).
    exists self'. split.
    + cbn [PmapCity_calls]. rewrite Hmid. exact Hrun.
    + intros a Ha. rewrite Hframe.
      * apply (PmapCity_call_frame _ _ _ Hmid). apply Ha. left.
      * intros c' Hc'. apply Ha. now right.
Qed.

(** Whatever setters are called on a PmapCity, in whatever order and with
    whatever arguments, every call succeeds, an attribute that none of the
    calls names is left as it was, and so the run number, the Monte Carlo
    classification and the seven calibration arrays stay those of
    construction. *)
Theorem setter_sequences_keep_run_and_calibration
    (self : PmapCity) (cs : list setter_call) :
  exists self',
    PmapCity_calls self cs = Ok self'
    /\ (forall a, (forall c, c ∈ cs -> a ∉ (assignments c).*1) ->
                  PmapCity_getattr self' a = PmapCity_getattr self a)
    /\ run_number (PmapCity_city self') = run_number (PmapCity_city self)
    /\ (monte_carlo (PmapCity_city self')).1
       = (monte_carlo (PmapCity_city self)).1
    /\ calibration_context (PmapCity_city self')
       = calibration_context (PmapCity_city self).
Proof using Type.
  destruct (PmapCity_calls_frame cs self) as (self' & Hrun & Hframe).
  exists self'. split; [exact Hrun|]. split; [exact Hframe|].
  assert (forall a, (forall c : setter_call, a ∉ (assignments c).*1) ->
                    PmapCity_getattr self' a = PmapCity_getattr self a)
    as Hkeep by (intros a Ha; apply Hframe; intros c _; apply Ha).
  assert (forall c : setter_call, a_run_number ∉ (assignments c).*1) as Hrn.
  { intros c. apply (bool_decide_unpack _). destruct c; reflexivity. }
  pose proof (Hkeep a_run_number Hrn) as Er.
  pose proof (Hkeep a_xs
                (fun c => calibration_field_never_assigned c a_xs eq_refl))
    as E1.
  pose proof (Hkeep a_ys
                (fun c => calibration_field_never_assigned c a_ys eq_refl))
    as E2.
  pose proof (Hkeep a_adc_to_pes
                (fun c => calibration_field_never_assigned c a_adc_to_pes eq_refl)) as E3.
  pose proof (Hkeep a_sipm_adc_to_pes
                (fun c => calibration_field_never_assigned c a_sipm_adc_to_pes eq_refl)) as E4.
  pose proof (Hkeep a_coeff_c
                (fun c => calibration_field_never_assigned c a_coeff_c eq_refl)) as E5.
  pose proof (Hkeep a_coeff_blr
                (fun c => calibration_field_never_assigned c a_coeff_blr eq_refl)) as E6.
  pose proof (Hkeep a_noise_rms
                (fun c => calibration_field_never_assigned c a_noise_rms eq_refl)) as E7.
  cbn in Er, E1, E2, E3, E4, E5, E6, E7.
  unfold calibration_context, monte_carlo, PmapCity_city, CalibratedCity_city.
  cbn [fst]. repeat split; congruence.
Qed.

(** Two setter calls that name no attribute in common can be made in
    either order, and a call made after a call of the same setter
    overwrites it: the object is as if only the later call had been
    made. *)
Theorem setter_calls_commute_and_overwrite
    (self : PmapCity) (c1 c2 : setter_call) :
  ((forall a, a ∈ (assignments c1).*1 -> a ∉ (assignments c2).*1) ->
   PmapCity_calls self [c1; c2] = PmapCity_calls self [c2; c1])
  /\ ((assignments c1).*1 = (assignments c2).*1 ->
      PmapCity_calls self [c1; c2] = PmapCity_calls self [c2]).
Proof using Type.
  split.
  - intros H.
    destruct c1, c2; try reflexivity;
      exfalso; eapply H; apply list_elem_of_here.
  - intros H. destruct c1, c2; try discriminate H; reflexivity.
Qed.

(** ** The peak search and the parameter attributes *)

(** [find_S12] raises exactly when [s1_params] or [s2_params] is [None]
    (also when only the S2 record is missing, after the S1 search has
    run), and then the error is an [AttributeError]; otherwise it returns
    the two searches. After [set_pmap_params] with two records it returns
    the searches under those records, whatever the object held before. *)
Theorem find_S12_raises_iff_params_missing
    (self : PmapCity) (s1_ene : list double) (s1_indx : list Z)
    (s2_ene : list double) (s2_indx : list Z) :
  (find_S12 self s1_ene s1_indx s2_ene s2_indx = Raise AttributeError <->
   s1_params self = None \/ s2_params self = None)
  /\ (forall e, find_S12 self s1_ene s1_indx s2_ene s2_indx = Raise e ->
                e = AttributeError)
  /\ ((exists S12, find_S12 self s1_ene s1_indx s2_ene s2_indx = Ok S12) <->
      is_Some (s1_params self) /\ is_Some (s2_params self))
  /\ (forall p1 p2,
        s1_params self = Some p1 -> s2_params self = Some p2 ->
        find_S12 self s1_ene s1_indx s2_ene s2_indx
        = Ok (cpf_find_S12 sample_period rebin_peak s1_ene s1_indx p1,
              cpf_find_S12 sample_period rebin_peak s2_ene s2_indx p2))
  /\ (forall p1 p2 thr,
        find_S12 (set_pmap_params self (Some p1) (Some p2) thr)
                 s1_ene s1_indx s2_ene s2_indx
        = Ok (cpf_find_S12 sample_period rebin_peak s1_ene s1_indx p1,
              cpf_find_S12 sample_period rebin_peak s2_ene s2_indx p2)).
Proof using Type.
  unfold find_S12.
  destruct (s1_params self) as [q1|], (s2_params self) as [q2|]; cbn.
  - split; [split; [discriminate | intros [H|H]; discriminate]|].
    split; [discriminate|].
    split; [split; [intros _; split; eauto | intros _; eexists; reflexivity]|].
    split; [|reflexivity].
    intros p1 p2 [= ->] [= ->]. reflexivity.
  - split; [split; [intros _; now right | reflexivity]|].
    split; [intros e [= <-]; reflexivity|].
    split; [split; [intros [r H]; discriminate
                   | intros [_ H]; now apply is_Some_None in H]|].
    split; [|reflexivity]. intros p1 p2 _ H. discriminate.
  - split; [split; [intros _; now left | reflexivity]|].
    split; [intros e [= <-]; reflexivity|].
    split; [split; [intros [r H]; discriminate
                   | intros [H _]; now apply is_Some_None in H]|].
    split; [|reflexivity]. intros p1 p2 H. discriminate.
  - split; [split; [intros _; now left | reflexivity]|].
    split; [intros e [= <-]; reflexivity|].
    split; [split; [intros [r H]; discriminate
                   | intros [H _]; now apply is_Some_None in H]|].
    split; [|reflexivity]. intros p1 p2 H. discriminate.
Qed.

(** ** What the per-event methods read *)

Ltac read_attribute H a :=
  let E := fresh "E" in
  pose proof (H a ltac:(repeat constructor)) as E; cbn in E.

Lemma PmapCity_method_reads (m : method_call) (s1 s2 : PmapCity) :
  (forall a, a ∈ attributes_read m ->
             PmapCity_getattr s1 a = PmapCity_getattr s2 a) ->
  PmapCity_method s1 m = PmapCity_method s2 m.
Proof using Type.
  intros H.
  destruct s1 as [[[[] ? ?] ? ? ? ? ? ?] ? ? ?],
           s2 as [[[[] ? ?] ? ? ? ? ? ?] ? ? ?].
  destruct m; cbn [attributes_read] in H; unfold PmapCity_method.
  - read_attribute H a_coeff_c. read_attribute H a_coeff_blr.
    read_attribute H a_n_baseline. read_attribute H a_thr_trigger.
    unfold deconv_pmt. cbn. simplify_eq. reflexivity.
  - read_attribute H a_adc_to_pes. read_attribute H a_n_MAU.
    read_attribute H a_thr_MAU.
    unfold calibrated_pmt_sum, CalibratedCity_city. cbn. simplify_eq. reflexivity.
  - reflexivity.
  - read_attribute H a_sipm_adc_to_pes. read_attribute H a_thr_sipm.
    read_attribute H a_n_MAU_sipm.
    unfold calibrated_signal_sipm, CalibratedCity_city. cbn. simplify_eq. reflexivity.
  - read_attribute H a_s1_params. read_attribute H a_s2_params.
    unfold find_S12. cbn. simplify_eq. reflexivity.
  - read_attribute H a_thr_sipm_s2.
    unfold find_S2Si. cbn. simplify_eq. reflexivity.
Qed.

(** A per-event method depends on the object through the attributes it
    reads only: two objects that agree on them give the same result or
    the same error. So a setter call changes the result of a method only
    if it names an attribute the method reads, and the four setters of
    City (print frequency, input files, output file, compression) change
    the result of no per-event method. *)
Theorem methods_read_only_their_attributes (m : method_call) :
  (forall s1 s2 : PmapCity,
     (forall a, a ∈ attributes_read m ->
                PmapCity_getattr s1 a = PmapCity_getattr s2 a) ->
     PmapCity_method s1 m = PmapCity_method s2 m)
  /\ (forall (self self' : PmapCity) c,
        PmapCity_call self c = Ok self' ->
        (forall a, a ∈ attributes_read m -> a ∉ (assignments c).*1) ->
        PmapCity_method self' m = PmapCity_method self m)
  /\ (forall (self self' : PmapCity) c city',
        PmapCity_call self c = Ok self' ->
        City_call (PmapCity_city self) c = Ok city' ->
        PmapCity_method self' m = PmapCity_method self m).
Proof using Type.
  assert (forall (self self' : PmapCity) c,
            PmapCity_call self c = Ok self' ->
            (forall a, a ∈ attributes_read m -> a ∉ (assignments c).*1) ->
            PmapCity_method self' m = PmapCity_method self m) as Hcall.
  { intros self self' c Hc Hdisj. apply PmapCity_method_reads.
    intros a Ha. apply (PmapCity_call_frame _ _ _ Hc). now apply Hdisj. }
  split; [exact (PmapCity_method_reads m)|]. split; [exact Hcall|].
  intros self self' c city' Hc Hcity. apply (Hcall _ _ _ Hc).
  intros a Ha. apply (bool_decide_unpack _).
  destruct c; try discriminate Hcity;
    destruct m; cbn in Ha;
    repeat (apply elem_of_cons in Ha as [->|Ha]; [reflexivity|]);
    now apply elem_of_nil in Ha.
Qed.

End Cities.

(** * The statements at the sample run *)

(** Run -5 is a Monte Carlo run. *)
Lemma monte_carlo_classification_witness :
  (monte_carlo Sample.city).1 = true.
Proof.
  destruct (monte_carlo_classification Sample.city)
    as (_ & _ & _ & _ & _ & H & _).
  apply H. reflexivity.
Defined.

(** The gain -25 of the database is stored as 25. *)
Lemma adc_to_pes_non_negative_witness :
  dlt (double_of_Z 25) dzero = false
  /\ (double_of_Z 25 <> dnan -> dle dzero (double_of_Z 25) = true).
Proof.
  apply (adc_to_pes_non_negative Sample.DataPMT Sample.DataSiPM
           (-5) None None "ZLIB4" 10000 Sample.city).
  - vm_compute. reflexivity.
  - apply list_elem_of_here.
Defined.

(** Installing peak-search parameters leaves the gains alone. *)
Lemma setters_leave_calibration_context_witness :
  PmapCity_getattr
    (set_pmap_params Sample.pmap_city (Some Sample.params)
                     (Some Sample.params) dzero) a_adc_to_pes
  = PmapCity_getattr Sample.pmap_city a_adc_to_pes.
Proof.
  destruct setters_leave_calibration_context
    as (Hcal & _ & _ & _ & _ & Hframe).
  apply (proj2 (Hframe Sample.pmap_city _
                  (call_set_pmap_params (Some Sample.params)
                                        (Some Sample.params) dzero)
                  eq_refl)).
  apply Hcal. reflexivity.
Defined.

(** With n_baseline = 4: three samples are too few, four are enough. *)
Lemma deconv_pmt_n_baseline_witness :
  deconv_pmt Sample.blr_deconvolve Sample.deconv_city [[1; 2; 3]%Z]
  = Raise ConfigurationError
  /\ deconv_pmt Sample.blr_deconvolve Sample.deconv_city [[1; 2; 3; 4]%Z]
     <> Raise ConfigurationError.
Proof.
  split.
  - apply (proj1 (deconv_pmt_n_baseline Sample.blr_deconvolve
                    Sample.deconv_city [[1; 2; 3]%Z])).
    exists [1; 2; 3]%Z. split; [apply list_elem_of_here | cbn; lia].
  - apply (proj2 (deconv_pmt_n_baseline Sample.blr_deconvolve
                    Sample.deconv_city [[1; 2; 3; 4]%Z])).
    intros wf Hwf. apply list_elem_of_singleton in Hwf. subst wf.
    cbn. lia.
Defined.

(** Two samples of 1 are both below the threshold 2. *)
Lemma csum_zs_sparse_witness :
  csum_zs Sample.calib_city [double_of_Z 1; double_of_Z 1] (double_of_Z 2)
  = ([], []).
Proof.
  destruct (csum_zs_sparse Sample.calib_city
              [double_of_Z 1; double_of_Z 1] (double_of_Z 2))
    as (_ & _ & _ & _ & H).
  apply H. repeat constructor.
Defined.

(** Samples 3 and 4 both exceed the threshold 2. *)
Lemma csum_zs_idempotent_witness :
  csum_zs Sample.calib_city [double_of_Z 3; double_of_Z 4] (double_of_Z 2)
  = ([double_of_Z 3; double_of_Z 4], [0; 1]%Z).
Proof.
  destruct (csum_zs_idempotent Sample.calib_city
              [double_of_Z 3; double_of_Z 4] (double_of_Z 2))
    as (_ & H & _).
  apply H. repeat constructor.
Defined.

(** The second sensor sums to 20 over the peak, not above 30: it is not
    in the sensor map of the peak. *)
Lemma find_S2Si_threshold_witness :
  sensor_map Sample.in_peak_window
             (cpf_select_sipm Sample.sensor_selected Sample.sipmzs)
             (double_of_Z 30) Sample.peak !! 1%nat
  = None.
Proof.
  destruct (find_S2Si_threshold Sample.sensor_selected Sample.in_peak_window
              Sample.pmap_city [Sample.peak] Sample.sipmzs)
    as (_ & H & _).
  apply (H 0%nat Sample.peak 1%nat
           [double_of_Z 12; double_of_Z 8; double_of_Z 3]).
  - reflexivity.
  - reflexivity.
  - vm_compute. reflexivity.
  - vm_compute. reflexivity.
Defined.

(** With lmin = 2 a run of two contiguous samples is a peak. *)
Lemma find_S12_length_bounds_witness :
  cpf_find_S12 Sample.sample_period Sample.rebin_peak
               [double_of_Z 7; double_of_Z 9] [10; 11]%Z Sample.params
  = [run_samples Sample.sample_period
       [(double_of_Z 7, 10%Z); (double_of_Z 9, 11%Z)]].
Proof.
  destruct (find_S12_length_bounds Sample.sample_period Sample.rebin_peak
              Sample.params) as (_ & Hopen & _ & Hrule).
  rewrite Hopen.
  - destruct (Hrule [(double_of_Z 7, 10%Z); (double_of_Z 9, 11%Z)])
      as (_ & _ & Hlmin & _).
    apply Hlmin; [cbn; lia | reflexivity].
  - cbn. repeat split; try (vm_compute; reflexivity). lia.
Defined.

(** The sample object is what the constructor returns for run -5 with the
    default parameter arguments; [find_S12] raises on it. *)
Lemma find_S12_before_set_pmap_params_witness :
  find_S12 Sample.sample_period Sample.rebin_peak Sample.pmap_city
           [double_of_Z 7] [10%Z] [double_of_Z 9] [11%Z]
  = Raise AttributeError.
Proof.
  destruct (find_S12_before_set_pmap_params
              Sample.DataPMT Sample.DataSiPM
              Sample.sample_period Sample.rebin_peak
              (-5) None None "ZLIB4" 10000 4 (double_of_Z 5)
              100 (double_of_Z 3) (double_of_Z 1) (double_of_Z 1)
              100 (double_of_Z 5) (double_of_Z 30)) as [_ H].
  destruct (H Sample.pmap_city) as (_ & _ & Hraise).
  - vm_compute. reflexivity.
  - apply Hraise.
Defined.

(** The constructor stores a parameter record that violates every
    invariant. *)
Lemma set_pmap_params_stores_unvalidated_witness :
  s1_params (set_pmap_params Sample.pmap_city (Some Sample.bad_params)
               (Some Sample.bad_params) (double_of_Z 30))
  = Some Sample.bad_params.
Proof.
  destruct (set_pmap_params_stores_unvalidated
              Sample.DataPMT Sample.DataSiPM Sample.pmap_city
              (Some Sample.bad_params) (Some Sample.bad_params)
              (double_of_Z 30)) as (_ & _ & _ & _ & _ & _ & H).
  destruct (H (-5)%Z None None "ZLIB4"%string 10000%Z 4%Z (double_of_Z 5)
              100%Z (double_of_Z 3) (double_of_Z 1) (double_of_Z 1)
              100%Z (double_of_Z 5)
              (set_pmap_params Sample.pmap_city (Some Sample.bad_params)
                 (Some Sample.bad_params) (double_of_Z 30)))
    as (Hs1 & _).
  - vm_compute. reflexivity.
  - exact Hs1.
Defined.

(** A parameter record that violates every invariant is installed by
    [set_pmap_params], and by the constructor, without any error. *)
Lemma set_pmap_params_accepts_invalid :
  S12Params_valid Sample.bad_params = false
  /\ dle (tmin Sample.bad_params) (tmax Sample.bad_params) = false
  /\ (lmax Sample.bad_params < lmin Sample.bad_params)%Z
  /\ (stride Sample.bad_params <= 0)%Z
  /\ (rebin Sample.bad_params <= 0)%Z
  /\ PmapCity_call Sample.pmap_city
       (call_set_pmap_params (Some Sample.bad_params)
                             (Some Sample.bad_params) (double_of_Z 30))
     = Ok (set_pmap_params Sample.pmap_city (Some Sample.bad_params)
             (Some Sample.bad_params) (double_of_Z 30))
  /\ s1_params (set_pmap_params Sample.pmap_city (Some Sample.bad_params)
                  (Some Sample.bad_params) (double_of_Z 30))
     = Some Sample.bad_params
  /\ s2_params (set_pmap_params Sample.pmap_city (Some Sample.bad_params)
                  (Some Sample.bad_params) (double_of_Z 30))
     = Some Sample.bad_params
  /\ PmapCity_init Sample.DataPMT Sample.DataSiPM
       (-5) None None "ZLIB4" 10000 4 (double_of_Z 5)
       100 (double_of_Z 3) (double_of_Z 1) (double_of_Z 1)
       100 (double_of_Z 5)
       (Some Sample.bad_params) (Some Sample.bad_params) (double_of_Z 30)
     = Ok (set_pmap_params Sample.pmap_city (Some Sample.bad_params)
             (Some Sample.bad_params) (double_of_Z 30)).
Proof.
  repeat apply conj; try reflexivity; cbn; lia.
Qed.

(** * Checks on concrete inputs *)

(** A NaN gain has no sign to normalise. *)
Example np_abs_signs :
  np_abs [double_of_Z (-25); double_of_Z 24; dzero; S754_zero true; dnan]
  = [double_of_Z 25; double_of_Z 24; dzero; dzero; dnan].
Proof. reflexivity. Qed.

Example monte_carlo_runs :
  (monte_carlo (set_print Sample.city 10)).1 = true
  /\ (monte_carlo Sample.city).2 = Sample.city.
Proof. split; reflexivity. Qed.

Example cpf_wfzs_keeps_samples_above :
  cpf_wfzs [double_of_Z 1; double_of_Z 5; double_of_Z 2; double_of_Z 7]
           (double_of_Z 2)
  = ([double_of_Z 5; double_of_Z 7], [1; 3]%Z).
Proof. reflexivity. Qed.

(** Two runs, of two and of four samples, with lmin = 2 and lmax = 3: the
    first is a peak, the second is too long. *)
Example cpf_find_S12_two_runs :
  cpf_find_S12 Sample.sample_period Sample.rebin_peak
    (double_of_Z <$> [7; 9; 6; 6; 6; 6]%Z) [10; 11; 20; 21; 22; 23]%Z
    Sample.params
  = [run_samples Sample.sample_period
       [(double_of_Z 7, 10%Z); (double_of_Z 9, 11%Z)]].
Proof. vm_compute. reflexivity. Qed.

(** One sample is a run of lmin - 1 samples; three are lmax samples. *)
Example cpf_find_S12_bounds :
  cpf_find_S12 Sample.sample_period Sample.rebin_peak
    [double_of_Z 7] [10%Z] Sample.params = []
  /\ length (cpf_find_S12 Sample.sample_period Sample.rebin_peak
               (double_of_Z <$> [7; 9; 6]%Z) [10; 11; 12]%Z Sample.params)
     = 1%nat
  /\ cpf_find_S12 Sample.sample_period Sample.rebin_peak
       (double_of_Z <$> [7; 9; 6; 5]%Z) [10; 11; 12; 13]%Z Sample.params
     = [].
Proof. vm_compute. repeat split. Qed.

(** Two sensors with 40 and 20 in the window of the peak and a threshold
    of 30: the map of the peak holds the first sensor only. *)
Example find_S2Si_two_sensors :
  find_S2Si Sample.sensor_selected Sample.in_peak_window Sample.pmap_city
            [Sample.peak] Sample.sipmzs
  = {[ 0%nat := {[ 0%nat := double_of_Z 40 ]} ]}.
Proof. vm_compute. reflexivity. Qed.

(** * The further properties at the sample run *)

(** The sample database has no run 5000. *)
Lemma City_init_lookup_errors_witness :
  City_init Sample.DataPMT Sample.DataSiPM 5000 None None "ZLIB4" 10000
  = Raise LookupError.
Proof.
  apply (proj2 (City_init_lookup_errors Sample.DataPMT Sample.DataSiPM
                  5000 None None "ZLIB4" 10000)).
  left. reflexivity.
Defined.

Lemma City_init_same_run_same_calibration_witness :
  calibration_context Sample.city
  = calibration_context (set_compression (set_print Sample.city 5) "ZLIB1").
Proof.
  apply (City_init_same_run_same_calibration Sample.DataPMT Sample.DataSiPM
           (-5) None None None None "ZLIB4" "ZLIB1" 10000 5).
  - vm_compute. reflexivity.
  - vm_compute. reflexivity.
Defined.

(** The first PMT gain of the database, -25, is held as 25. *)
Lemma City_init_gains_witness :
  adc_to_pes Sample.city !! 0%nat = Some (SFabs (double_of_Z (-25))).
Proof.
  destruct (City_init_gains Sample.DataPMT Sample.DataSiPM
              (-5) None None "ZLIB4" 10000 Sample.city
              {| pmt_adc_to_pes := [double_of_Z (-25); double_of_Z 24; dzero];
                 pmt_coeff_c    := [double_of_Z 2; double_of_Z 2; double_of_Z 2];
                 pmt_coeff_blr  := [double_of_Z 1; double_of_Z 1; double_of_Z 1];
                 pmt_noise_rms  := [double_of_Z 1; double_of_Z 1; double_of_Z 1]
              |}
              {| sipm_X := [double_of_Z (-10); double_of_Z 10];
                 sipm_Y := [double_of_Z 5; double_of_Z 5];
                 sipm_adc_to_pes_column := [double_of_Z 16; double_of_Z 17] |})
    as (_ & H & _).
  - vm_compute. reflexivity.
  - reflexivity.
  - reflexivity.
  - apply (H 0%nat (double_of_Z (-25))). reflexivity.
Defined.

Lemma PmapCity_init_chain_witness :
  PmapCity_init Sample.DataPMT Sample.DataSiPM
    5000 None None "ZLIB4" 10000 4 (double_of_Z 5)
    100 (double_of_Z 3) (double_of_Z 1) (double_of_Z 1)
    100 (double_of_Z 5) None None (double_of_Z 30)
  = Raise LookupError.
Proof.
  apply (proj1 (PmapCity_init_chain Sample.DataPMT Sample.DataSiPM
                  5000 None None "ZLIB4" 10000 4 (double_of_Z 5)
                  100 (double_of_Z 3) (double_of_Z 1) (double_of_Z 1)
                  100 (double_of_Z 5) None None (double_of_Z 30))).
  reflexivity.
Defined.

Lemma calibrated_methods_after_construction_witness :
  calibrated_pmt_sum Sample.cpf_calibrated_pmt_sum Sample.calib_city
                     [[double_of_Z 7; double_of_Z 9]]
  = Sample.cpf_calibrated_pmt_sum [[double_of_Z 7; double_of_Z 9]]
      (np_abs [double_of_Z (-25); double_of_Z 24; dzero])
      100 (double_of_Z 3).
Proof.
  destruct (calibrated_methods_after_construction
              Sample.DataPMT Sample.DataSiPM
              Sample.cpf_calibrated_pmt_sum Sample.cpf_signal_sipm
              (-5) None None "ZLIB4" 10000 4 (double_of_Z 5)
              100 (double_of_Z 3) (double_of_Z 1) (double_of_Z 1)
              100 (double_of_Z 5) Sample.calib_city
              {| pmt_adc_to_pes := [double_of_Z (-25); double_of_Z 24; dzero];
                 pmt_coeff_c    := [double_of_Z 2; double_of_Z 2; double_of_Z 2];
                 pmt_coeff_blr  := [double_of_Z 1; double_of_Z 1; double_of_Z 1];
                 pmt_noise_rms  := [double_of_Z 1; double_of_Z 1; double_of_Z 1]
              |}
              {| sipm_X := [double_of_Z (-10); double_of_Z 10];
                 sipm_Y := [double_of_Z 5; double_of_Z 5];
                 sipm_adc_to_pes_column := [double_of_Z 16; double_of_Z 17] |})
    as (H & _).
  - vm_compute. reflexivity.
  - reflexivity.
  - reflexivity.
  - apply H.
Defined.

(** Neither [set_print] nor [set_blr] names [thr_sipm_s2]. *)
Lemma setter_sequences_keep_run_and_calibration_witness :
  match PmapCity_calls Sample.pmap_city
          [call_set_print 5; call_set_blr 10 dzero] with
  | Ok self' =>
      PmapCity_getattr self' a_thr_sipm_s2
      = PmapCity_getattr Sample.pmap_city a_thr_sipm_s2
  | Raise _ => False
  end.
Proof.
  destruct (setter_sequences_keep_run_and_calibration Sample.pmap_city
              [call_set_print 5; call_set_blr 10 dzero])
    as (self' & Hrun & Hframe & _).
  rewrite Hrun. apply Hframe.
  intros c Hc. apply (bool_decide_unpack _).
  apply elem_of_cons in Hc as [->|Hc]; [reflexivity|].
  apply list_elem_of_singleton in Hc as ->. reflexivity.
Defined.

Lemma setter_calls_commute_and_overwrite_witness :
  PmapCity_calls Sample.pmap_city [call_set_print 5; call_set_blr 10 dzero]
  = PmapCity_calls Sample.pmap_city [call_set_blr 10 dzero; call_set_print 5].
Proof.
  apply (proj1 (setter_calls_commute_and_overwrite Sample.pmap_city
                  (call_set_print 5) (call_set_blr 10 dzero))).
  intros a Ha. apply list_elem_of_singleton in Ha as ->.
  apply (bool_decide_unpack _). reflexivity.
Defined.

(** With the S1 record set and the S2 record missing the search raises. *)
Lemma find_S12_raises_iff_params_missing_witness :
  find_S12 Sample.sample_period Sample.rebin_peak
           (set_pmap_params Sample.pmap_city (Some Sample.params) None dzero)
           [double_of_Z 7] [10%Z] [double_of_Z 9] [11%Z]
  = Raise AttributeError.
Proof.
  apply (proj1 (find_S12_raises_iff_params_missing
                  Sample.sample_period Sample.rebin_peak
                  (set_pmap_params Sample.pmap_city (Some Sample.params)
                                   None dzero)
                  [double_of_Z 7] [10%Z] [double_of_Z 9] [11%Z])).
  right. reflexivity.
Defined.

(** Changing the print frequency does not change the sensor map. *)
Lemma methods_read_only_their_attributes_witness :
  PmapCity_method Sample.blr_deconvolve Sample.cpf_calibrated_pmt_sum
    Sample.cpf_signal_sipm Sample.sample_period Sample.rebin_peak
    Sample.sensor_selected Sample.in_peak_window
    (PmapCity_with_super Sample.pmap_city
       (CalibratedCity_with_super Sample.calib_city
          (DeconvolutionCity_with_super Sample.deconv_city
             (set_print Sample.city 5))))
    (call_find_S2Si [Sample.peak] Sample.sipmzs)
  = PmapCity_method Sample.blr_deconvolve Sample.cpf_calibrated_pmt_sum
      Sample.cpf_signal_sipm Sample.sample_period Sample.rebin_peak
      Sample.sensor_selected Sample.in_peak_window
      Sample.pmap_city (call_find_S2Si [Sample.peak] Sample.sipmzs).
Proof.
  destruct (methods_read_only_their_attributes
              Sample.blr_deconvolve Sample.cpf_calibrated_pmt_sum
              Sample.cpf_signal_sipm Sample.sample_period Sample.rebin_peak
              Sample.sensor_selected Sample.in_peak_window
              (call_find_S2Si [Sample.peak] Sample.sipmzs))
    as (_ & _ & H).
  apply (H Sample.pmap_city _ (call_set_print 5) (set_print Sample.city 5));
    reflexivity.
Defined.

(** With n_baseline raised to 4 by [set_blr], three samples are too few. *)
Lemma deconv_pmt_after_set_blr_witness :
  deconv_pmt Sample.blr_deconvolve
             (set_blr (set_blr Sample.deconv_city 2 dzero) 4 (double_of_Z 5))
             [[1; 2; 3]%Z]
  = blr_deconv_pmt Sample.blr_deconvolve [[1; 2; 3]%Z]
      [double_of_Z 2; double_of_Z 2; double_of_Z 2]
      [double_of_Z 1; double_of_Z 1; double_of_Z 1] 4 (double_of_Z 5).
Proof.
  destruct (deconv_pmt_after_set_blr Sample.DataPMT Sample.DataSiPM
              Sample.blr_deconvolve
              (-5) None None "ZLIB4" 10000 2 dzero
              (set_blr Sample.deconv_city 2 dzero)
              {| pmt_adc_to_pes := [double_of_Z (-25); double_of_Z 24; dzero];
                 pmt_coeff_c    := [double_of_Z 2; double_of_Z 2; double_of_Z 2];
                 pmt_coeff_blr  := [double_of_Z 1; double_of_Z 1; double_of_Z 1];
                 pmt_noise_rms  := [double_of_Z 1; double_of_Z 1; double_of_Z 1]
              |}) as (_ & H).
  - vm_compute. reflexivity.
  - reflexivity.
  - apply H.
Defined.
